(** * Air Quality Prediction API: a shallow embedding of [main.py]

    The service loads one regression artifact at import time and exposes a
    single endpoint, [POST /predict], which turns a batch of coordinates into
    a batch of pollutant estimates.  The embedding follows the file top to
    bottom: the module-level artifact load, the three pydantic schemas, and
    the body of [predict_air_quality].

    Python values are modelled as the program has them: [float] is the
    kernel's binary64, a [dict] is an association list in insertion order,
    an exception is a class name with its [str()], and [print] and
    [model.predict] leave a trace in an event log that survives a raised
    exception. *)

From Stdlib Require Import List String Ascii ZArith Bool Lia Floats DecimalString.
Import ListNotations.

Set Warnings "-inexact-float,-register-all".

Open Scope string_scope.
Open Scope list_scope.

(** ** Python runtime: exceptions, results, dictionaries *)

(** An instance of a subclass of [Exception]: its class and what [str(e)]
    (equivalently [f"{e}"]) prints. *)
Record exn : Type := Exn { exn_class : string; str : string }.

Definition FileNotFoundError (msg : string) : exn := Exn "FileNotFoundError" msg.
Definition RuntimeError (msg : string) : exn := Exn "RuntimeError" msg.
Definition ValueError (msg : string) : exn := Exn "ValueError" msg.

(** [fastapi.HTTPException(status_code=..., detail=...)]. *)
Record HTTPException : Type :=
  mkHTTPException { status_code : Z; detail : string }.

(** The outcome of running a block: it falls through with a value or it
    raises. *)
Inductive result (E A : Type) : Type :=
| Return (a : A)
| Raise (e : E).
Arguments Return {E A} a.
Arguments Raise {E A} e.

(** A [dict] with string keys, in insertion order. *)
Definition dict (V : Type) : Type := list (string * V).

Fixpoint dict_get {V : Type} (d : dict V) (k : string) : option V :=
  match d with
  | [] => None
  | (k', v) :: d' => if String.eqb k' k then Some v else dict_get d' k
  end.

(** [d[k] = v]: an existing key keeps its position, a new key goes last. *)
Fixpoint dict_set {V : Type} (d : dict V) (k : string) (v : V) : dict V :=
  match d with
  | [] => [(k, v)]
  | (k', v') :: d' =>
      if String.eqb k' k then (k', v) :: d' else (k', v') :: dict_set d' k v
  end.

(** [dict(pairs)]. *)
Definition dict_of {V : Type} (pairs : list (string * V)) : dict V :=
  fold_left (fun d kv => dict_set d (fst kv) (snd kv)) pairs [].

(** [zip(xs, ys)] stops at the shorter argument. *)
Definition zip {A B : Type} (xs : list A) (ys : list B) : list (A * B) :=
  combine xs ys.

(** [==] on lists of strings. *)
Fixpoint list_eqb (xs ys : list string) : bool :=
  match xs, ys with
  | [], [] => true
  | x :: xs', y :: ys' => String.eqb x y && list_eqb xs' ys'
  | _, _ => false
  end.

(** ** pandas: a frame built from a list of records *)

Record DataFrame : Type := mkDataFrame
  { columns : list string;
    values : list (list float) }.

(** Column labels are the keys of the records in order of first appearance. *)
Definition add_keys (cols : list string) (record : dict float) : list string :=
  fold_left
    (fun cs kv => if existsb (String.eqb (fst kv)) cs then cs else cs ++ [fst kv])
    record cols.

(** [pd.DataFrame(records)] for a list of dicts; a cell whose record lacks
    the column is NaN. *)
Definition pd_DataFrame (records : list (dict float)) : DataFrame :=
  let cols := fold_left add_keys records [] in
  {| columns := cols;
     values :=
       map (fun record =>
              map (fun c => match dict_get record c with
                            | Some v => v
                            | None => nan
                            end) cols)
           records |}.

(** ** Effects: the event log *)

(** What the process does that an observer can see: a call of
    [model.predict] and a line written by [print]. *)
Inductive event : Type :=
| Predicted (X : DataFrame)
| Printed (line : string).

(** A block of statements: it reads the log so far, extends it, and falls
    through or raises.  The log is kept when an exception is raised. *)
Definition io (E A : Type) : Type := list event -> result E A * list event.

Definition ret {E A : Type} (a : A) : io E A :=
  fun log => (Return a, log).

Definition raise {E A : Type} (e : E) : io E A :=
  fun log => (Raise e, log).

Definition bind {E A B : Type} (c : io E A) (k : A -> io E B) : io E B :=
  fun log =>
    match c log with
    | (Return a, log') => k a log'
    | (Raise e, log') => (Raise e, log')
    end.

(** [try: c  except Exception as e: h e]. *)
Definition try_except {E E' A : Type} (c : io E A) (h : E -> io E' A) : io E' A :=
  fun log =>
    match c log with
    | (Return a, log') => (Return a, log')
    | (Raise e, log') => h e log'
    end.

Definition print {E : Type} (line : string) : io E unit :=
  fun log => (Return tt, log ++ [Printed line]).

Definition lift {E A : Type} (r : result E A) : io E A :=
  fun log => (r, log).

Declare Scope io_scope.
Delimit Scope io_scope with io.
Notation "x <- c ;; k" := (bind c (fun x => k))
  (at level 100, c at next level, right associativity) : io_scope.
Notation "c ;;; k" := (bind c (fun _ => k))
  (at level 100, right associativity) : io_scope.

(** How many times the model was called in a log. *)
Fixpoint invocations (log : list event) : nat :=
  match log with
  | [] => 0
  | Predicted _ :: log' => S (invocations log')
  | Printed _ :: log' => invocations log'
  end.

(** ** The model handle *)

(** The deserialized artifact: a black box with one capability,
    [predict], from a frame to a two-dimensional array (or an exception). *)
Record Model : Type := mkModel
  { predict : DataFrame -> result exn (list (list float)) }.

(** [model.predict(X)], recorded in the log. *)
Definition call_predict (model : Model) (X : DataFrame) : io exn (list (list float)) :=
  fun log => (predict model X, log ++ [Predicted X]).

(** ** 1. Load the model *)

Definition MODEL_PATH : string := "xgboost_air_quality_model.joblib".

Section Startup.

(** [os.path.exists] and [joblib.load] on the host's file system. *)
Variable path_exists : string -> bool.
Variable joblib_load : string -> result exn Model.

(** What writing a line to the standard output of the process raises, if
    anything.  The success line of the import holds a character outside
    ASCII, which an output stream with a narrower encoding refuses
    ([UnicodeEncodeError]). *)
Variable print_raises : string -> option exn.

(** [print(line)] on that standard output: the line is written, or the
    exception is raised and nothing is written. *)
Definition print_on_stdout (line : string) : io exn unit :=
  fun log =>
    match print_raises line with
    | None => (Return tt, log ++ [Printed line])
    | Some e => (Raise e, log)
    end.

(** The module-level statements up to the creation of [app]: an exception
    here aborts the import, so no application object exists.  The success
    [print] sits inside the [try], so an exception it raises is caught and
    re-raised like one of [joblib.load]. *)
Definition load_model : io exn Model :=
  if negb (path_exists MODEL_PATH) then
    raise (FileNotFoundError
             ("Model file not found at: " ++ MODEL_PATH ++ ". "
              ++ "Please ensure 'xgboost_air_quality_model.joblib' is in the same directory."))
  else
    try_except
      (model <- lift (joblib_load MODEL_PATH) ;;
       print_on_stdout "✅ Model loaded successfully!" ;;;
       ret model)%io
      (fun e => raise (RuntimeError ("Failed to load the model: " ++ str e))).

End Startup.

(** ** 3. Input and output schemas *)

Record PredictionInput : Type := mkPredictionInput
  { Latitude : float;
    Longitude : float }.

Record PredictionOutput : Type := mkPredictionOutput
  { PM2_5 : float;
    PM10 : float;
    O3 : float;
    NO2 : float;
    CO : float;
    SO2 : float }.

Record PredictionBatchInput : Type := mkPredictionBatchInput
  { locations : list PredictionInput }.

(** [loc.dict()]: the fields in declaration order. *)
Definition PredictionInput_dict (loc : PredictionInput) : dict float :=
  [("Latitude", Latitude loc); ("Longitude", Longitude loc)].

(** The names of the required fields of [PredictionOutput] that a keyword
    dictionary does not supply. *)
Definition missing_fields (fields : list string) (kwargs : dict float) : list string :=
  filter (fun f => match dict_get kwargs f with Some _ => false | None => true end) fields.

Definition PredictionOutput_fields : list string :=
  ["PM2_5"; "PM10"; "O3"; "NO2"; "CO"; "SO2"].

(** ** Request bodies and pydantic validation

    The schemas of the program are declarations; what they accept is
    pydantic's doing.  The validators below follow its rules for the
    declared types: a field declared with [Field(...)] is required, a
    [float] field converts what can be converted, a model is read from an
    object and ignores keys it does not declare, and all errors of a body
    are collected. *)

(** What [json.loads] hands to the validator. *)
Inductive json : Type :=
| JNull
| JBool (b : bool)
| JInt (n : Z)
| JFloat (x : float)
| JStr (s : string)
| JList (items : list json)
| JDict (members : dict json).

(** One entry of a validation error: where, and of which kind. *)
Inductive loc_item : Type :=
| Field (name : string)
| Index (i : nat).

Inductive error_type : Type :=
| missing
| float_type
| float_parsing
| list_type
| model_attributes_type.

Record ErrorDetails : Type := mkErrorDetails
  { loc : list loc_item;
    err_type : error_type }.

Definition at_loc (prefix : list loc_item) (errors : list ErrorDetails) : list ErrorDetails :=
  map (fun e => {| loc := prefix ++ loc e; err_type := err_type e |}) errors.

(** [int.__float__]: the nearest binary64, ties to even; an integer beyond
    the range has no float value. *)
Definition int_to_float (n : Z) : option float :=
  match binary_normalize prec emax n 0 false with
  | S754_infinity _ => None
  | sf => Some (SF2Prim sf)
  end.

(** The outcome of a request to [POST /predict], as validation and the
    function decide it: the returned list (status 200), the validation
    errors (status 422), or the HTTP exception the function raised.  How the
    framework encodes the outcome on the wire is not part of the program. *)
Inductive response : Type :=
| Success (body : list PredictionOutput)
| UnprocessableEntity (errors : list ErrorDetails)
| Failure (e : HTTPException).

Definition response_status (r : response) : Z :=
  match r with
  | Success _ => 200
  | UnprocessableEntity _ => 422
  | Failure e => status_code e
  end.

(** The JSON form of a float in a response: a finite float is a number;
    NaN and the infinities, which JSON cannot spell, come out as [null].
    This is the framework's serialization, not code of the program. *)
Definition float_json (x : float) : json :=
  if is_finite x then JFloat x else JNull.

(** The JSON form of a successful body ([response_model=List[PredictionOutput]]). *)
Definition PredictionOutput_json (out : PredictionOutput) : json :=
  JDict [("PM2_5", float_json (PM2_5 out)); ("PM10", float_json (PM10 out));
         ("O3", float_json (O3 out)); ("NO2", float_json (NO2 out));
         ("CO", float_json (CO out)); ("SO2", float_json (SO2 out))].

Definition body_json (results : list PredictionOutput) : json :=
  JList (map PredictionOutput_json results).

Section Service.

(** The conversion of a string to a float, as the validator does it for a
    [float] field. *)
Variable float_of_str : string -> option float.

(** The text of a pydantic [ValidationError] for a model, given the
    required fields that were not supplied. *)
Variable ValidationError_str : string -> list string -> string.

Definition ValidationError (title : string) (absent : list string) : exn :=
  Exn "ValidationError" (ValidationError_str title absent).

(** A field annotated [float], under pydantic's default (lax) validation:
    floats pass, integers and booleans are converted, strings are parsed,
    anything else is refused. *)
Definition validate_float (v : json) : result error_type float :=
  match v with
  | JFloat x => Return x
  | JInt n =>
      match int_to_float n with
      | Some x => Return x
      | None => Raise float_type
      end
  | JBool b => Return (if b then 1%float else 0%float)
  | JStr s =>
      match float_of_str s with
      | Some x => Return x
      | None => Raise float_parsing
      end
  | JNull | JList _ | JDict _ => Raise float_type
  end.

(** A required field ([Field(...)]) of type [float]. *)
Definition validate_field (members : dict json) (name : string)
  : result (list ErrorDetails) float :=
  match dict_get members name with
  | None => Raise [{| loc := [Field name]; err_type := missing |}]
  | Some v =>
      match validate_float v with
      | Return x => Return x
      | Raise t => Raise [{| loc := [Field name]; err_type := t |}]
      end
  end.

(** [PredictionInput]: both fields are checked and every error is
    reported; keys the schema does not name are ignored. *)
Definition validate_PredictionInput (v : json)
  : result (list ErrorDetails) PredictionInput :=
  match v with
  | JDict members =>
      match validate_field members "Latitude", validate_field members "Longitude" with
      | Return lat, Return lon => Return {| Latitude := lat; Longitude := lon |}
      | Raise e1, Return _ => Raise e1
      | Return _, Raise e2 => Raise e2
      | Raise e1, Raise e2 => Raise (e1 ++ e2)
      end
  | _ => Raise [{| loc := []; err_type := model_attributes_type |}]
  end.

(** [List[PredictionInput]]: every element is validated, in order. *)
Fixpoint validate_items (i : nat) (items : list json)
  : result (list ErrorDetails) (list PredictionInput) :=
  match items with
  | [] => Return []
  | v :: rest =>
      match validate_PredictionInput v, validate_items (S i) rest with
      | Return x, Return xs => Return (x :: xs)
      | Raise e, Return _ => Raise (at_loc [Index i] e)
      | Return _, Raise es => Raise es
      | Raise e, Raise es => Raise (at_loc [Index i] e ++ es)
      end
  end.

(** [PredictionBatchInput], the type of the endpoint's body parameter. *)
Definition validate_PredictionBatchInput (body : json)
  : result (list ErrorDetails) PredictionBatchInput :=
  match body with
  | JDict members =>
      match dict_get members "locations" with
      | None => Raise [{| loc := [Field "body"; Field "locations"]; err_type := missing |}]
      | Some (JList items) =>
          match validate_items 0 items with
          | Return locs => Return {| locations := locs |}
          | Raise es => Raise (at_loc [Field "body"; Field "locations"] es)
          end
      | Some _ => Raise [{| loc := [Field "body"; Field "locations"]; err_type := list_type |}]
      end
  | _ => Raise [{| loc := [Field "body"]; err_type := model_attributes_type |}]
  end.

(** [PredictionOutput] built from keyword arguments: all six fields are
    required. *)
Definition PredictionOutput_init (kwargs : dict float) : result exn PredictionOutput :=
  match dict_get kwargs "PM2_5", dict_get kwargs "PM10", dict_get kwargs "O3",
        dict_get kwargs "NO2", dict_get kwargs "CO", dict_get kwargs "SO2" with
  | Some pm2_5, Some pm10, Some o3, Some no2, Some co, Some so2 =>
      Return {| PM2_5 := pm2_5; PM10 := pm10; O3 := o3;
                NO2 := no2; CO := co; SO2 := so2 |}
  | _, _, _, _, _, _ =>
      Raise (ValidationError "PredictionOutput"
               (missing_fields PredictionOutput_fields kwargs))
  end.

(** ** 4. The endpoint *)

(** The artifact loaded at import time. *)
Variable model : Model.

Definition output_targets : list string :=
  ["PM2_5"; "PM10"; "O3"; "NO2"; "CO"; "SO2"].

(** The [for pred in predictions_array] loop, [results] being the list
    built so far. *)
Fixpoint format_predictions (predictions_array : list (list float))
    (results : list PredictionOutput) : io exn (list PredictionOutput) :=
  match predictions_array with
  | [] => ret results
  | pred :: rest =>
      let prediction_dict := dict_of (zip output_targets pred) in
      (out <- lift (PredictionOutput_init prediction_dict) ;;
       format_predictions rest (results ++ [out]))%io
  end.

(** The body of the [try] block. *)
Definition predict_body (data : PredictionBatchInput) : io exn (list PredictionOutput) :=
  let input_data := map PredictionInput_dict (locations data) in
  let X_df := pd_DataFrame input_data in
  if negb (list_eqb (columns X_df) ["Latitude"; "Longitude"]) then
    raise (ValueError "Input data must contain 'Latitude' and 'Longitude' columns.")
  else
    (predictions_array <- call_predict model X_df ;;
     format_predictions predictions_array [])%io.

(** [predict_air_quality(data)]: the [try] block and its handler. *)
Definition predict_air_quality (data : PredictionBatchInput)
  : io HTTPException (list PredictionOutput) :=
  try_except (predict_body data)
    (fun e =>
       (print ("Prediction Error: " ++ str e) ;;;
        raise {| status_code := 500;
                 detail := "Internal Server Error: " ++ str e |})%io).

(** [POST /predict]: the framework validates the body against the
    parameter's type and calls the function only on a valid one. *)
Definition post_predict (body : json) (log : list event) : response * list event :=
  match validate_PredictionBatchInput body with
  | Raise errors => (UnprocessableEntity errors, log)
  | Return data =>
      match predict_air_quality data log with
      | (Return results, log') => (Success results, log')
      | (Raise e, log') => (Failure e, log')
      end
  end.

End Service.

(** ** The process: load once, then serve *)

Section Process.

Variable path_exists : string -> bool.
Variable joblib_load : string -> result exn Model.
Variable print_raises : string -> option exn.
Variable float_of_str : string -> option float.
Variable ValidationError_str : string -> list string -> string.

(** Requests are answered one after the other by the same model. *)
Fixpoint serve (model : Model) (bodies : list json) (log : list event)
  : list response * list event :=
  match bodies with
  | [] => ([], log)
  | body :: rest =>
      let (r, log1) := post_predict float_of_str ValidationError_str model body log in
      let (rs, log2) := serve model rest log1 in
      (r :: rs, log2)
  end.

(** Importing the module and then serving: when the import raises, the
    process ends with that exception and answers nothing. *)
Definition main (bodies : list json) (log : list event)
  : result exn (list response) * list event :=
  match load_model path_exists joblib_load print_raises log with
  | (Return model, log1) =>
      let (rs, log2) := serve model bodies log1 in (Return rs, log2)
  | (Raise e, log1) => (Raise e, log1)
  end.

End Process.

(** ** Reading the code: what a row becomes *)

(** The estimate that binds the first six values of a row to the six
    pollutant names, in order; a shorter row has none. *)
Definition row_estimate (pred : list float) : option PredictionOutput :=
  match pred with
  | pm2_5 :: pm10 :: o3 :: no2 :: co :: so2 :: _ =>
      Some {| PM2_5 := pm2_5; PM10 := pm10; O3 := o3;
              NO2 := no2; CO := co; SO2 := so2 |}
  | _ => None
  end.

(** The table a batch of validated locations is expected to become. *)
Definition coordinate_table (locs : list PredictionInput) : DataFrame :=
  {| columns := ["Latitude"; "Longitude"];
     values := map (fun loc => [Latitude loc; Longitude loc]) locs |}.

(** The message of the column check, the exception the handler raises for
    an error [e] of the [try] block, and the line it prints first. *)
Definition columns_message : string :=
  "Input data must contain 'Latitude' and 'Longitude' columns.".

Definition server_error (e : exn) : HTTPException :=
  {| status_code := 500; detail := "Internal Server Error: " ++ str e |}.

Definition diagnostic (e : exn) : event :=
  Printed ("Prediction Error: " ++ str e).

(** The table the handler assembles for a batch. *)
Definition assembled (data : PredictionBatchInput) : DataFrame :=
  pd_DataFrame (map PredictionInput_dict (locations data)).

(** The request body [{"locations": items}]. *)
Definition batch_body (items : list json) : json :=
  JDict [("locations", JList items)].

(** The request element [{"Latitude": lat, "Longitude": lon}]. *)
Definition location (lat lon : json) : json :=
  JDict [("Latitude", lat); ("Longitude", lon)].

(** The row-count check as the specification words it: whenever the model
    answers with a number of rows other than the number of locations, the
    handler raises a server error. *)
Definition row_count_is_checked : Prop :=
  forall (vstr : string -> list string -> string) (model : Model)
         (data : PredictionBatchInput) (log : list event) (rows : list (list float)),
    predict model (assembled data) = Return rows ->
    List.length rows <> List.length (locations data) ->
    exists e log',
      predict_air_quality vstr model data log = (Raise e, log')
      /\ status_code e = 500%Z.

(** Order preservation as the specification words it: for every batch of
    [N >= 0] locations on which the model answers with an [N] x 6 array,
    the handler returns [N] estimates, the i-th built from the i-th row. *)
Definition order_is_preserved_for_every_batch : Prop :=
  forall (vstr : string -> list string -> string) (model : Model)
         (data : PredictionBatchInput) (log : list event) (rows : list (list float)),
    predict model (assembled data) = Return rows ->
    List.length rows = List.length (locations data) ->
    Forall (fun row => List.length row = 6) rows ->
    exists outs log',
      predict_air_quality vstr model data log = (Return outs, log')
      /\ List.length outs = List.length (locations data)
      /\ forall i row, nth_error rows i = Some row ->
           exists out, nth_error outs i = Some out
                       /\ PredictionOutput_init vstr (dict_of (zip output_targets row))
                          = Return out.

(** ** The schema in words *)

Section Schema.

Variable float_of_str : string -> option float.

(** [float_value v x]: the JSON value [v] is convertible to a float, and [x]
    is its float value.  Floats stand for themselves, integers and booleans
    for the float of the same value, strings for the number they spell. *)
Inductive float_value : json -> float -> Prop :=
| float_is_float (x : float) : float_value (JFloat x) x
| int_is_float (n : Z) (x : float) :
    int_to_float n = Some x -> float_value (JInt n) x
| bool_is_float (b : bool) :
    float_value (JBool b) (if b then 1%float else 0%float)
| numeric_str_is_float (s : string) (x : float) :
    float_of_str s = Some x -> float_value (JStr s) x.

Definition convertible (v : json) : Prop := exists x, float_value v x.

(** An element of a batch that fails the schema of [PredictionInput]: one
    of the two fields is absent, or holds a value that is not convertible
    to a float, or the element is not an object at all. *)
Inductive fails_schema : json -> Prop :=
| field_absent (members : dict json) (name : string) :
    name = "Latitude" \/ name = "Longitude" ->
    dict_get members name = None ->
    fails_schema (JDict members)
| field_not_numeric (members : dict json) (name : string) (v : json) :
    name = "Latitude" \/ name = "Longitude" ->
    dict_get members name = Some v ->
    ~ convertible v ->
    fails_schema (JDict members)
| not_an_object (v : json) :
    (forall members, v <> JDict members) ->
    fails_schema v.

End Schema.

(** ** Float values, read independently of the validator *)

(** [float_is_integer x n]: the binary64 [x] is finite and its value, read
    off its sign, mantissa and exponent, is exactly the integer [n]. *)
Definition float_is_integer (x : float) (n : Z) : Prop :=
  match Prim2SF x with
  | S754_zero _ => n = 0%Z
  | S754_finite s m e =>
      (cond_Zopp s (Zpos m) * 2 ^ Z.max 0 e = n * 2 ^ Z.max 0 (- e))%Z
  | _ => False
  end.

(** The binary64 nearest to [m / 10^k] (ties to even), signed: the IEEE
    division of the two integers, rounded once. *)
Definition round_decimal (neg : bool) (m : Z) (k : nat) : float :=
  match m with
  | Zpos p =>
      SF2Prim (SFdiv prec emax (S754_finite neg p 0)
                 (S754_finite false (Z.to_pos (10 ^ Z.of_nat k)) 0))
  | _ => SF2Prim (S754_zero neg)
  end.

(** A string up to its first point, and what follows the point. *)
Fixpoint split_at_point (s : string) : string * option string :=
  match s with
  | EmptyString => (EmptyString, None)
  | String c rest =>
      if Ascii.eqb c "." then (EmptyString, Some rest)
      else let (a, b) := split_at_point rest in (String c a, b)
  end.

(** A non-empty run of decimal digits. *)
Definition digits_of_string (s : string) : option Decimal.uint :=
  match NilEmpty.uint_of_string s with
  | Some Decimal.Nil => None
  | r => r
  end.

Definition strip_sign (s : string) : bool * string :=
  match s with
  | String c rest =>
      if Ascii.eqb c "-" then (true, rest)
      else if Ascii.eqb c "+" then (false, rest)
      else (false, s)
  | EmptyString => (false, s)
  end.

(** The float spelled by a plain decimal numeral: an optional sign, digits,
    and optionally a point followed by digits.  Other strings spell no
    float here; what a parser makes of them (exponents, [inf], [nan],
    surrounding blanks) is left open. *)
Definition decimal_float (s : string) : option float :=
  let (neg, body) := strip_sign s in
  match split_at_point body with
  | (ip, None) =>
      match digits_of_string ip with
      | Some i => Some (round_decimal neg (Z.of_uint i) 0)
      | None => None
      end
  | (ip, Some fp) =>
      match digits_of_string ip, digits_of_string fp with
      | Some i, Some f =>
          Some (round_decimal neg (Z.of_uint (Decimal.app i f)) (Decimal.nb_digits f))
      | _, _ => None
      end
  end.

(** The numeral with the given sign, integer digits and fraction digits. *)
Definition numeral (neg : bool) (i : Decimal.uint) (f : option Decimal.uint) : string :=
  ((if neg then "-" else "")
   ++ NilEmpty.string_of_uint i
   ++ match f with
      | Some d => String "." (NilEmpty.string_of_uint d)
      | None => ""
      end)%string.

(** A string parser reads decimal numerals when it gives each of them the
    float it spells. *)
Definition reads_decimal_numerals (float_of_str : string -> option float) : Prop :=
  forall (s : string) (x : float), decimal_float s = Some x -> float_of_str s = Some x.

(** ** Sample artifacts and inputs *)

(** A model that answers every table with the same array. *)
Definition constant_model (rows : list (list float)) : Model :=
  {| predict := fun _ => Return rows |}.

(** A model whose [predict] raises. *)
Definition raising_model (e : exn) : Model :=
  {| predict := fun _ => Raise e |}.

(** A rendering of validation errors: the model's name and the absent
    fields. *)
Definition plain_text (title : string) (absent : list string) : string :=
  title ++ ": " ++ String.concat ", " absent.

(** A string parser that knows one numeral. *)
Definition parse_40_71 (s : string) : option float :=
  if String.eqb s "40.71" then Some 40.71%float else None.

Definition new_york : PredictionInput :=
  {| Latitude := 40.71; Longitude := -74.00 |}.

Definition los_angeles : PredictionInput :=
  {| Latitude := 34.05; Longitude := -118.24 |}.

(** A standard output that takes every line. *)
Definition prints_everything (line : string) : option exn := None.

(** A standard output that cannot encode the success line of the import. *)
Definition ascii_only_stdout (line : string) : option exn :=
  if String.eqb line "✅ Model loaded successfully!"
  then Some (Exn "UnicodeEncodeError" "'charmap' codec can't encode character")
  else None.

(** A batch whose first element is well formed, whose second lacks
    [Longitude] and whose third has [null] for it. *)
Definition partly_invalid_items : list json :=
  [location (JFloat 40.71) (JFloat (-74.00));
   JDict [("Latitude", JFloat 1)];
   location (JFloat 2) JNull].

(** * Properties *)

(** ** Rows and estimates *)

Lemma row_estimate_some (pred : list float) :
  6 <= List.length pred <-> exists out, row_estimate pred = Some out.
Proof.
  destruct pred as [|a [|b [|c [|d [|e [|f rest]]]]]]; simpl; split;
    try lia; try (intros [out H]; discriminate H); intros _; eexists; reflexivity.
Qed.

Lemma row_estimate_none (pred : list float) :
  List.length pred < 6 <-> row_estimate pred = None.
Proof.
  destruct pred as [|a [|b [|c [|d [|e [|f rest]]]]]]; simpl; split;
    try lia; try discriminate; reflexivity.
Qed.

Lemma row_estimate_firstn (pred : list float) :
  row_estimate (firstn 6 pred) = row_estimate pred.
Proof.
  destruct pred as [|a [|b [|c [|d [|e [|f rest]]]]]]; reflexivity.
Qed.

Section ServiceFacts.

Variable vstr : string -> list string -> string.
Variable model : Model.

(** Building an estimate from [dict(zip(output_targets, pred))] succeeds
    exactly on rows of six values or more, and then takes the first six. *)
Lemma PredictionOutput_init_row (pred : list float) :
  PredictionOutput_init vstr (dict_of (zip output_targets pred)) =
  match row_estimate pred with
  | Some out => Return out
  | None => Raise (ValidationError vstr "PredictionOutput"
                     (skipn (List.length pred) output_targets))
  end.
Proof.
  destruct pred as [|a [|b [|c [|d [|e [|f rest]]]]]]; reflexivity.
Qed.

Lemma format_predictions_ok (rows : list (list float)) :
  forall outs acc log,
    Forall2 (fun row out => row_estimate row = Some out) rows outs ->
    format_predictions vstr rows acc log = (Return (acc ++ outs), log).
Proof.
  induction rows as [|row rows IH]; intros outs acc log H; inversion H; subst.
  - simpl. unfold ret. now rewrite app_nil_r.
  - cbn [format_predictions]. unfold bind, lift. rewrite PredictionOutput_init_row.
    match goal with Hr : row_estimate row = Some _ |- _ => rewrite Hr end.
    erewrite IH by eassumption. now rewrite <- app_assoc.
Qed.

Lemma format_predictions_short (rows : list (list float)) :
  forall acc log,
    Exists (fun row => List.length row < 6) rows ->
    exists absent,
      format_predictions vstr rows acc log =
      (Raise (ValidationError vstr "PredictionOutput" absent), log).
Proof.
  induction rows as [|row rows IH]; intros acc log H.
  - inversion H.
  - cbn [format_predictions]. unfold bind, lift. rewrite PredictionOutput_init_row.
    destruct (row_estimate row) as [out|] eqn:Hrow.
    + apply IH. inversion H; subst; [|assumption].
      match goal with Hs : List.length row < 6 |- _ =>
        apply row_estimate_none in Hs; congruence end.
    + eexists. reflexivity.
Qed.

(** ** The assembled table *)

Lemma add_keys_PredictionInput (locs : list PredictionInput) :
  fold_left add_keys (map PredictionInput_dict locs) ["Latitude"; "Longitude"]
  = ["Latitude"; "Longitude"].
Proof.
  induction locs as [|loc locs IH]; [reflexivity|]. simpl. exact IH.
Qed.

(** A batch with at least one location becomes the two-column table, its
    rows in the order of the batch. *)
Lemma pd_DataFrame_batch (locs : list PredictionInput) :
  locs <> [] ->
  pd_DataFrame (map PredictionInput_dict locs) = coordinate_table locs.
Proof.
  intros Hne. destruct locs as [|loc locs]; [congruence|].
  unfold pd_DataFrame, coordinate_table.
  assert (Hcols : fold_left add_keys (map PredictionInput_dict (loc :: locs)) []
                  = ["Latitude"; "Longitude"]).
  { simpl. apply add_keys_PredictionInput. }
  rewrite Hcols. f_equal. rewrite map_map. apply map_ext. reflexivity.
Qed.

(** The empty batch becomes a table without columns. *)
Lemma pd_DataFrame_empty :
  pd_DataFrame (map PredictionInput_dict []) = {| columns := []; values := [] |}.
Proof. reflexivity. Qed.

(** ** Runs of the handler *)

Lemma rows_have_estimates (rows : list (list float)) :
  Forall (fun row => 6 <= List.length row) rows ->
  exists outs, Forall2 (fun row out => row_estimate row = Some out) rows outs.
Proof.
  induction 1 as [|row rows Hrow _ [outs IH]].
  - exists []. constructor.
  - apply row_estimate_some in Hrow. destruct Hrow as [out Hout].
    exists (out :: outs). now constructor.
Qed.

Lemma predict_body_empty (data : PredictionBatchInput) (log : list event) :
  locations data = [] ->
  predict_body vstr model data log = (Raise (ValueError columns_message), log).
Proof. intros H. unfold predict_body. rewrite H. reflexivity. Qed.

Lemma predict_body_nonempty (data : PredictionBatchInput) (log : list event) :
  locations data <> [] ->
  predict_body vstr model data log =
  bind (call_predict model (coordinate_table (locations data)))
       (fun rows => format_predictions vstr rows []) log.
Proof.
  intros H. unfold predict_body. rewrite (pd_DataFrame_batch _ H). reflexivity.
Qed.

Lemma predict_air_quality_returns data log rows outs :
  locations data <> [] ->
  predict model (coordinate_table (locations data)) = Return rows ->
  Forall2 (fun row out => row_estimate row = Some out) rows outs ->
  predict_air_quality vstr model data log =
  (Return outs, log ++ [Predicted (coordinate_table (locations data))]).
Proof.
  intros Hne Hm Hrows. unfold predict_air_quality, try_except.
  rewrite (predict_body_nonempty _ _ Hne). unfold bind at 1, call_predict.
  rewrite Hm, (format_predictions_ok _ _ _ _ Hrows). reflexivity.
Qed.

Lemma predict_air_quality_model_raises data log e :
  locations data <> [] ->
  predict model (coordinate_table (locations data)) = Raise e ->
  predict_air_quality vstr model data log =
  (Raise (server_error e),
   log ++ [Predicted (coordinate_table (locations data))] ++ [diagnostic e]).
Proof.
  intros Hne Hm. unfold predict_air_quality, try_except.
  rewrite (predict_body_nonempty _ _ Hne). unfold bind at 1, call_predict.
  rewrite Hm. unfold bind, print, raise. now rewrite <- app_assoc.
Qed.

Lemma predict_air_quality_short_row data log rows :
  locations data <> [] ->
  predict model (coordinate_table (locations data)) = Return rows ->
  Exists (fun row => List.length row < 6) rows ->
  exists absent,
    predict_air_quality vstr model data log =
    (Raise (server_error (ValidationError vstr "PredictionOutput" absent)),
     log ++ [Predicted (coordinate_table (locations data))]
         ++ [diagnostic (ValidationError vstr "PredictionOutput" absent)]).
Proof.
  intros Hne Hm Hshort. unfold predict_air_quality, try_except.
  rewrite (predict_body_nonempty _ _ Hne). unfold bind at 1, call_predict.
  rewrite Hm.
  destruct (format_predictions_short rows []
              (log ++ [Predicted (coordinate_table (locations data))]) Hshort)
    as [absent Habsent].
  exists absent. rewrite Habsent. unfold bind, print, raise.
  now rewrite <- app_assoc.
Qed.

Lemma predict_air_quality_empty data log :
  locations data = [] ->
  predict_air_quality vstr model data log =
  (Raise (server_error (ValueError columns_message)),
   log ++ [diagnostic (ValueError columns_message)]).
Proof.
  intros H. unfold predict_air_quality, try_except.
  rewrite (predict_body_empty _ _ H). reflexivity.
Qed.

End ServiceFacts.

(** ** Auxiliary facts on logs and lists *)

Lemma invocations_app (log1 log2 : list event) :
  invocations (log1 ++ log2) = invocations log1 + invocations log2.
Proof.
  induction log1 as [|[X|line] log1 IH]; simpl; [reflexivity| |]; now rewrite IH.
Qed.

Lemma Forall2_nth_error_l {A B : Type} (R : A -> B -> Prop) (xs : list A) :
  forall (ys : list B) (i : nat) (x : A),
    Forall2 R xs ys -> nth_error xs i = Some x ->
    exists y, nth_error ys i = Some y /\ R x y.
Proof.
  induction xs as [|x0 xs IH]; intros ys i x H Hi; inversion H; subst.
  - destruct i; discriminate Hi.
  - destruct i as [|i]; simpl in Hi.
    + injection Hi as Hx. subst x0. eexists. split; [reflexivity | eassumption].
    + simpl. eapply IH; eassumption.
Qed.

Lemma Forall2_length_eq {A B : Type} (R : A -> B -> Prop) (xs : list A) (ys : list B) :
  Forall2 R xs ys -> List.length xs = List.length ys.
Proof. induction 1; simpl; congruence. Qed.

(** ** The empty batch *)

(** C1 (the code departs from the claim).  The body [{"locations": []}]
    passes validation, yet the handler answers it with status 500 and the
    message of the column check, after printing the diagnostic line; the
    model is not invoked.  The claim expects an empty batch with a success
    status. *)
Theorem empty_batch_is_answered_with_500 :
  forall (float_of_str : string -> option float)
         (vstr : string -> list string -> string) (model : Model) (log : list event),
    post_predict float_of_str vstr model (batch_body []) log =
    (Failure {| status_code := 500;
                detail := "Internal Server Error: Input data must contain 'Latitude' and 'Longitude' columns." |},
     log ++ [Printed "Prediction Error: Input data must contain 'Latitude' and 'Longitude' columns."])
    /\ invocations (snd (post_predict float_of_str vstr model (batch_body []) log))
       = invocations log.
Proof.
  intros. split; [reflexivity|].
  cbn. rewrite invocations_app. simpl. lia.
Qed.

(** C3 (the code departs from the claim).  The empty batch passes schema
    validation, the table assembled for it has no columns, and the column
    check therefore fires: the [try] block raises the check's [ValueError]
    before the model is called.  The claim holds the check to be
    unreachable for validated batches of every length, zero included. *)
Theorem empty_batch_reaches_the_column_check :
  forall (float_of_str : string -> option float)
         (vstr : string -> list string -> string) (model : Model) (log : list event),
    validate_PredictionBatchInput float_of_str (batch_body []) = Return {| locations := [] |}
    /\ columns (assembled {| locations := [] |}) = []
    /\ list_eqb (columns (assembled {| locations := [] |})) ["Latitude"; "Longitude"] = false
    /\ predict_body vstr model {| locations := [] |} log
       = (Raise (ValueError "Input data must contain 'Latitude' and 'Longitude' columns."), log).
Proof. intros. repeat split. Qed.

(** For every batch with at least one location the check passes: the
    columns are exactly [Latitude], [Longitude]. *)
Lemma column_check_passes_on_nonempty_batch (data : PredictionBatchInput) :
  locations data <> [] ->
  list_eqb (columns (assembled data)) ["Latitude"; "Longitude"] = true.
Proof.
  intros H. unfold assembled. now rewrite (pd_DataFrame_batch _ H).
Qed.

(** ** Row counts *)

(** C2 (refuted as stated).  The handler has no row-count check: a model
    that answers one location with two rows gets both rows returned. *)
Lemma row_count_is_not_checked : ~ row_count_is_checked.
Proof.
  intros H.
  destruct (H plain_text
              (constant_model [[1; 2; 3; 4; 5; 6]; [7; 8; 9; 10; 11; 12]]%float)
              {| locations := [new_york] |} []
              [[1; 2; 3; 4; 5; 6]; [7; 8; 9; 10; 11; 12]]%float
              eq_refl) as (e & log' & Hrun & _).
  - simpl. lia.
  - vm_compute in Hrun. discriminate Hrun.
Qed.

(** C2 (amended).  When the model answers a non-empty batch of N locations
    with M rows, M different from N, each row holding at least six values,
    the handler raises nothing: it returns M estimates, one per row, after a
    single call of the model. *)
Theorem mismatched_row_count_is_returned :
  forall (vstr : string -> list string -> string) (model : Model)
         (data : PredictionBatchInput) (log : list event) (rows : list (list float)),
    locations data <> [] ->
    predict model (assembled data) = Return rows ->
    List.length rows <> List.length (locations data) ->
    Forall (fun row => 6 <= List.length row) rows ->
    exists outs,
      predict_air_quality vstr model data log
      = (Return outs, log ++ [Predicted (assembled data)])
      /\ Forall2 (fun row out => row_estimate row = Some out) rows outs
      /\ List.length outs = List.length rows
      /\ List.length outs <> List.length (locations data).
Proof.
  intros vstr model data log rows Hne Hm Hlen Hrows.
  destruct (rows_have_estimates rows Hrows) as [outs Houts].
  exists outs. unfold assembled in *. rewrite (pd_DataFrame_batch _ Hne) in *.
  pose proof (Forall2_length_eq _ _ _ Houts) as Hl.
  repeat split; try assumption; [|lia|lia].
  now apply predict_air_quality_returns with (rows := rows).
Qed.

Lemma mismatched_row_count_is_returned_witness :
  locations {| locations := [new_york] |} <> []
  /\ exists outs,
       predict_air_quality plain_text
         (constant_model [[1; 2; 3; 4; 5; 6]; [7; 8; 9; 10; 11; 12]]%float)
         {| locations := [new_york] |} []
       = (Return outs, [Predicted (assembled {| locations := [new_york] |})])
       /\ Forall2 (fun row out => row_estimate row = Some out)
            [[1; 2; 3; 4; 5; 6]; [7; 8; 9; 10; 11; 12]]%float outs
       /\ List.length outs = 2
       /\ List.length outs <> 1.
Proof.
  split; [discriminate|].
  apply (mismatched_row_count_is_returned plain_text
           (constant_model [[1; 2; 3; 4; 5; 6]; [7; 8; 9; 10; 11; 12]]%float)
           {| locations := [new_york] |} []
           [[1; 2; 3; 4; 5; 6]; [7; 8; 9; 10; 11; 12]]%float).
  - discriminate.
  - reflexivity.
  - simpl. lia.
  - repeat constructor.
Defined.

(** ** Order preservation *)

(** Order preservation as the specification words it does not hold of the
    handler: on the empty batch a model that answers with no rows, as the
    contract asks, is never called, and the handler raises. *)
Lemma order_is_not_preserved_for_every_batch : ~ order_is_preserved_for_every_batch.
Proof.
  intros H.
  destruct (H plain_text (constant_model []) {| locations := [] |} [] []
              eq_refl eq_refl (Forall_nil _)) as (outs & log' & Hrun & _).
  vm_compute in Hrun. discriminate Hrun.
Qed.

(** For a batch of N >= 1 locations on which the model answers with N rows
    of at least six values each: the table handed to the model has the
    i-th location as its i-th row, the handler returns exactly N estimates,
    and the i-th estimate is the one built from the i-th row. *)
Lemma order_is_preserved_on_nonempty_batch :
  forall (vstr : string -> list string -> string) (model : Model)
         (data : PredictionBatchInput) (log : list event) (rows : list (list float)),
    locations data <> [] ->
    predict model (assembled data) = Return rows ->
    List.length rows = List.length (locations data) ->
    Forall (fun row => 6 <= List.length row) rows ->
    values (assembled data)
    = map (fun loc => [Latitude loc; Longitude loc]) (locations data)
    /\ exists outs,
         predict_air_quality vstr model data log
         = (Return outs, log ++ [Predicted (assembled data)])
         /\ List.length outs = List.length (locations data)
         /\ forall i row, nth_error rows i = Some row ->
              exists out, nth_error outs i = Some out
                          /\ row_estimate row = Some out
                          /\ PredictionOutput_init vstr (dict_of (zip output_targets row))
                             = Return out.
Proof.
  intros vstr model data log rows Hne Hm Hlen Hrows.
  destruct (rows_have_estimates rows Hrows) as [outs Houts].
  unfold assembled in *. rewrite (pd_DataFrame_batch _ Hne) in *.
  split; [reflexivity|]. exists outs. split; [|split].
  - now apply predict_air_quality_returns with (rows := rows).
  - rewrite <- Hlen. symmetry. exact (Forall2_length_eq _ _ _ Houts).
  - intros i row Hi.
    destruct (Forall2_nth_error_l _ _ _ _ _ Houts Hi) as (out & Hout & Hrow).
    exists out. repeat split; try assumption.
    rewrite PredictionOutput_init_row, Hrow. reflexivity.
Qed.

(** Two different locations, answered with two different rows, come back
    as two estimates in the order of the rows. *)
Example two_locations_keep_their_order :
  predict_air_quality plain_text
    (constant_model [[1; 2; 3; 4; 5; 6]; [7; 8; 9; 10; 11; 12]]%float)
    {| locations := [new_york; los_angeles] |} []
  = (Return [{| PM2_5 := 1; PM10 := 2; O3 := 3; NO2 := 4; CO := 5; SO2 := 6 |};
             {| PM2_5 := 7; PM10 := 8; O3 := 9; NO2 := 10; CO := 11; SO2 := 12 |}],
     [Predicted {| columns := ["Latitude"; "Longitude"];
                   values := [[40.71; -74.00]; [34.05; -118.24]]%float |}]).
Proof. reflexivity. Qed.

(** C4 (the code departs from the claim).  Take a batch of N locations on
    which the model answers, as its contract says, with an N x 6 array.
    When N >= 1 the claim holds: the table has the i-th location as its
    i-th row, N estimates come back and the i-th is built from the i-th
    row.  When N = 0 it does not: the handler raises the 500 of the column
    check and there is no output batch. *)
Theorem order_is_preserved_except_on_the_empty_batch :
  forall (vstr : string -> list string -> string) (model : Model)
         (data : PredictionBatchInput) (log : list event) (rows : list (list float)),
    predict model (assembled data) = Return rows ->
    List.length rows = List.length (locations data) ->
    Forall (fun row => List.length row = 6) rows ->
    (locations data = [] ->
     predict_air_quality vstr model data log
     = (Raise {| status_code := 500;
                 detail := "Internal Server Error: Input data must contain 'Latitude' and 'Longitude' columns." |},
        log ++ [Printed "Prediction Error: Input data must contain 'Latitude' and 'Longitude' columns."]))
    /\ (locations data <> [] ->
        values (assembled data)
        = map (fun loc => [Latitude loc; Longitude loc]) (locations data)
        /\ exists outs,
             predict_air_quality vstr model data log
             = (Return outs, log ++ [Predicted (assembled data)])
             /\ List.length outs = List.length (locations data)
             /\ forall i row, nth_error rows i = Some row ->
                  exists out, nth_error outs i = Some out
                              /\ row_estimate row = Some out
                              /\ PredictionOutput_init vstr
                                   (dict_of (zip output_targets row))
                                 = Return out).
Proof.
  intros vstr model data log rows Hm Hlen Hrows. split.
  - intros Hempty. now apply predict_air_quality_empty.
  - intros Hne.
    apply (order_is_preserved_on_nonempty_batch vstr model data log rows Hne Hm Hlen).
    eapply Forall_impl; [|exact Hrows]. intros row Hrow. simpl in Hrow. lia.
Qed.

Lemma order_is_preserved_except_on_the_empty_batch_witness :
  predict (constant_model []) (assembled {| locations := [] |}) = Return []
  /\ List.length (@nil (list float)) = List.length (locations {| locations := [] |})
  /\ predict_air_quality plain_text (constant_model []) {| locations := [] |} []
     = (Raise {| status_code := 500;
                 detail := "Internal Server Error: Input data must contain 'Latitude' and 'Longitude' columns." |},
        [Printed "Prediction Error: Input data must contain 'Latitude' and 'Longitude' columns."]).
Proof.
  split; [reflexivity|]. split; [reflexivity|].
  apply (order_is_preserved_except_on_the_empty_batch plain_text (constant_model [])
           {| locations := [] |} [] [] eq_refl eq_refl (Forall_nil _)).
  reflexivity.
Defined.

(** ** The binding of values to pollutant names *)

(** C5.  A row of six values becomes the estimate that binds the i-th value
    to the i-th name of PM2_5, PM10, O3, NO2, CO, SO2; and the single
    location (40.71, -74.00), on a model answering its table with the row
    12.3, 20.1, 5.4, 3.2, 0.8, 1.1, is answered with status 200 and the
    one-element body that binds these six values in that order. *)
Theorem six_values_bind_to_six_names :
  forall (float_of_str : string -> option float)
         (vstr : string -> list string -> string) (model : Model) (log : list event),
    predict model (assembled {| locations := [new_york] |})
    = Return [[12.3; 20.1; 5.4; 3.2; 0.8; 1.1]]%float ->
    (forall v1 v2 v3 v4 v5 v6 : float,
        dict_of (zip output_targets [v1; v2; v3; v4; v5; v6])
        = [("PM2_5", v1); ("PM10", v2); ("O3", v3); ("NO2", v4); ("CO", v5); ("SO2", v6)]
        /\ PredictionOutput_init vstr (dict_of (zip output_targets [v1; v2; v3; v4; v5; v6]))
           = Return {| PM2_5 := v1; PM10 := v2; O3 := v3; NO2 := v4; CO := v5; SO2 := v6 |})
    /\ post_predict float_of_str vstr model
         (batch_body [location (JFloat 40.71) (JFloat (-74.00))]) log
       = (Success [{| PM2_5 := 12.3; PM10 := 20.1; O3 := 5.4;
                      NO2 := 3.2; CO := 0.8; SO2 := 1.1 |}],
          log ++ [Predicted {| columns := ["Latitude"; "Longitude"];
                               values := [[40.71; -74.00]]%float |}])
    /\ response_status
         (fst (post_predict float_of_str vstr model
                 (batch_body [location (JFloat 40.71) (JFloat (-74.00))]) log)) = 200%Z
    /\ body_json [{| PM2_5 := 12.3; PM10 := 20.1; O3 := 5.4;
                     NO2 := 3.2; CO := 0.8; SO2 := 1.1 |}]
       = JList [JDict [("PM2_5", JFloat 12.3); ("PM10", JFloat 20.1); ("O3", JFloat 5.4);
                       ("NO2", JFloat 3.2); ("CO", JFloat 0.8); ("SO2", JFloat 1.1)]].
Proof.
  intros float_of_str vstr model log Hm.
  assert (Hrun : post_predict float_of_str vstr model
                   (batch_body [location (JFloat 40.71) (JFloat (-74.00))]) log
                 = (Success [{| PM2_5 := 12.3; PM10 := 20.1; O3 := 5.4;
                                NO2 := 3.2; CO := 0.8; SO2 := 1.1 |}],
                    log ++ [Predicted {| columns := ["Latitude"; "Longitude"];
                                         values := [[40.71; -74.00]]%float |}])).
  { unfold post_predict.
    change (validate_PredictionBatchInput float_of_str
              (batch_body [location (JFloat 40.71) (JFloat (-74.00))]))
      with (@Return (list ErrorDetails) _ {| locations := [new_york] |}).
    cbv beta iota.
    rewrite (predict_air_quality_returns vstr model {| locations := [new_york] |} log
               [[12.3; 20.1; 5.4; 3.2; 0.8; 1.1]]%float
               [{| PM2_5 := 12.3; PM10 := 20.1; O3 := 5.4;
                   NO2 := 3.2; CO := 0.8; SO2 := 1.1 |}]).
    - reflexivity.
    - discriminate.
    - exact Hm.
    - repeat constructor. }
  split; [|split; [|split]].
  - intros. split; reflexivity.
  - exact Hrun.
  - rewrite Hrun. reflexivity.
  - reflexivity.
Qed.

Lemma six_values_bind_to_six_names_witness :
  predict (constant_model [[12.3; 20.1; 5.4; 3.2; 0.8; 1.1]]%float)
    (assembled {| locations := [new_york] |})
  = Return [[12.3; 20.1; 5.4; 3.2; 0.8; 1.1]]%float
  /\ post_predict parse_40_71 plain_text
       (constant_model [[12.3; 20.1; 5.4; 3.2; 0.8; 1.1]]%float)
       (batch_body [location (JFloat 40.71) (JFloat (-74.00))]) []
     = (Success [{| PM2_5 := 12.3; PM10 := 20.1; O3 := 5.4;
                    NO2 := 3.2; CO := 0.8; SO2 := 1.1 |}],
        [Predicted {| columns := ["Latitude"; "Longitude"];
                      values := [[40.71; -74.00]]%float |}]).
Proof.
  split; [reflexivity|].
  apply (six_values_bind_to_six_names parse_40_71 plain_text
           (constant_model [[12.3; 20.1; 5.4; 3.2; 0.8; 1.1]]%float) []).
  reflexivity.
Defined.

(** ** Validation *)

Section ValidationFacts.

Variable float_of_str : string -> option float.

Lemma validate_float_value (v : json) (x : float) :
  validate_float float_of_str v = Return x <-> float_value float_of_str v x.
Proof.
  split.
  - destruct v as [|b|n|y|s|items|members]; simpl; try discriminate.
    + intros H. injection H as <-. constructor.
    + destruct (int_to_float n) as [y|] eqn:Hn; [|discriminate].
      intros H. injection H as <-. now constructor.
    + intros H. injection H as <-. constructor.
    + destruct (float_of_str s) as [y|] eqn:Hs; [|discriminate].
      intros H. injection H as <-. now constructor.
  - intros H. destruct H as [y|n y Hn|b|s y Hs]; simpl.
    + reflexivity.
    + now rewrite Hn.
    + reflexivity.
    + now rewrite Hs.
Qed.

Lemma validate_float_rejects (v : json) :
  (exists t, validate_float float_of_str v = Raise t) <-> ~ convertible float_of_str v.
Proof.
  split.
  - intros [t Ht] [x Hx]. apply validate_float_value in Hx. congruence.
  - intros Hv. destruct (validate_float float_of_str v) as [x|t] eqn:Hx.
    + exfalso. apply Hv. exists x. now apply validate_float_value.
    + now exists t.
Qed.

Lemma validate_field_absent (members : dict json) (name : string) :
  dict_get members name = None ->
  exists errors, validate_field float_of_str members name = Raise errors /\ errors <> [].
Proof.
  intros H. unfold validate_field. rewrite H. eexists. split; [reflexivity | discriminate].
Qed.

Lemma validate_field_not_numeric (members : dict json) (name : string) (v : json) :
  dict_get members name = Some v ->
  ~ convertible float_of_str v ->
  exists errors, validate_field float_of_str members name = Raise errors /\ errors <> [].
Proof.
  intros H Hv. apply validate_float_rejects in Hv. destruct Hv as [t Ht].
  unfold validate_field. rewrite H, Ht. eexists. split; [reflexivity | discriminate].
Qed.

Lemma validate_field_value (members : dict json) (name : string) (v : json) (x : float) :
  dict_get members name = Some v ->
  float_value float_of_str v x ->
  validate_field float_of_str members name = Return x.
Proof.
  intros H Hv. apply validate_float_value in Hv.
  unfold validate_field. now rewrite H, Hv.
Qed.

(** One failing field fails the element, whatever the other field holds. *)
Lemma field_failure_fails_element (members : dict json) (name : string) :
  name = "Latitude" \/ name = "Longitude" ->
  (exists errors, validate_field float_of_str members name = Raise errors /\ errors <> []) ->
  exists errors,
    validate_PredictionInput float_of_str (JDict members) = Raise errors /\ errors <> [].
Proof.
  intros Hname (errors & Hf & Hne). unfold validate_PredictionInput.
  destruct Hname as [-> | ->]; rewrite Hf.
  - destruct (validate_field float_of_str members "Longitude") as [y|e2].
    + now exists errors.
    + exists (errors ++ e2). split; [reflexivity|].
      destruct errors; [congruence | discriminate].
  - destruct (validate_field float_of_str members "Latitude") as [x|e1].
    + now exists errors.
    + exists (e1 ++ errors). split; [reflexivity|].
      intros Happ. apply app_eq_nil in Happ. now destruct Happ.
Qed.

Lemma fails_schema_is_rejected (v : json) :
  fails_schema float_of_str v ->
  exists errors, validate_PredictionInput float_of_str v = Raise errors /\ errors <> [].
Proof.
  intros [members name Hname Habs | members name w Hname Hget Hw | w Hobj].
  - apply (field_failure_fails_element members name Hname).
    now apply validate_field_absent.
  - apply (field_failure_fails_element members name Hname).
    now apply validate_field_not_numeric with (v := w).
  - destruct w as [|b|n|y|s|items|members];
      try (eexists; split; [reflexivity | discriminate]).
    exfalso. now apply (Hobj members).
Qed.

Lemma at_loc_nonempty (prefix : list loc_item) (errors : list ErrorDetails) :
  errors <> [] -> at_loc prefix errors <> [].
Proof. destruct errors; [congruence | discriminate]. Qed.

(** One failing element fails the list, wherever it stands. *)
Lemma validate_items_rejects (items : list json) :
  Exists (fails_schema float_of_str) items ->
  forall i, exists errors,
    validate_items float_of_str i items = Raise errors /\ errors <> [].
Proof.
  induction 1 as [v rest Hv | v rest _ IH]; intros i; simpl.
  - destruct (fails_schema_is_rejected v Hv) as (e & -> & Hne).
    destruct (validate_items float_of_str (S i) rest) as [xs|es].
    + eexists. split; [reflexivity | now apply at_loc_nonempty].
    + eexists. split; [reflexivity|].
      intros Happ. apply app_eq_nil in Happ. destruct Happ as [Happ _].
      now apply at_loc_nonempty in Happ.
  - destruct (IH (S i)) as (es & -> & Hne).
    destruct (validate_PredictionInput float_of_str v) as [x|e].
    + now exists es.
    + eexists. split; [reflexivity|].
      intros Happ. apply app_eq_nil in Happ. now destruct Happ.
Qed.

End ValidationFacts.

(** C6.  When the [locations] list of a request holds at least one element
    that fails the schema (Latitude or Longitude absent, or holding a value
    that is not numeric), the request is answered with status 422 and a
    non-empty list of errors; the function is not called, so the log is
    unchanged: the model is not invoked, nothing is printed, and no
    element of the batch gets an estimate. *)
Theorem invalid_element_rejects_the_whole_batch :
  forall (float_of_str : string -> option float)
         (vstr : string -> list string -> string) (model : Model)
         (members : dict json) (items : list json) (log : list event),
    dict_get members "locations" = Some (JList items) ->
    Exists (fails_schema float_of_str) items ->
    exists errors,
      post_predict float_of_str vstr model (JDict members) log
      = (UnprocessableEntity errors, log)
      /\ errors <> []
      /\ response_status (fst (post_predict float_of_str vstr model (JDict members) log))
         = 422%Z
      /\ invocations (snd (post_predict float_of_str vstr model (JDict members) log))
         = invocations log.
Proof.
  intros float_of_str vstr model members items log Hget Hbad.
  destruct (validate_items_rejects float_of_str items Hbad 0) as (es & Hes & Hne).
  exists (at_loc [Field "body"; Field "locations"] es).
  assert (Hrun : post_predict float_of_str vstr model (JDict members) log
                 = (UnprocessableEntity (at_loc [Field "body"; Field "locations"] es), log)).
  { unfold post_predict, validate_PredictionBatchInput. now rewrite Hget, Hes. }
  rewrite Hrun. repeat split. now apply at_loc_nonempty.
Qed.

Lemma invalid_element_rejects_the_whole_batch_witness :
  dict_get [("locations", JList partly_invalid_items)] "locations"
  = Some (JList partly_invalid_items)
  /\ Exists (fails_schema parse_40_71) partly_invalid_items
  /\ exists errors,
       post_predict parse_40_71 plain_text (constant_model [])
         (batch_body partly_invalid_items) []
       = (UnprocessableEntity errors, [])
       /\ errors <> []
       /\ response_status
            (fst (post_predict parse_40_71 plain_text (constant_model [])
                    (batch_body partly_invalid_items) [])) = 422%Z
       /\ invocations
            (snd (post_predict parse_40_71 plain_text (constant_model [])
                    (batch_body partly_invalid_items) [])) = invocations [].
Proof.
  assert (Hbad : Exists (fails_schema parse_40_71) partly_invalid_items).
  { apply Exists_cons_tl, Exists_cons_hd.
    apply (field_absent parse_40_71 [("Latitude", JFloat 1)] "Longitude");
      [now right | reflexivity]. }
  split; [reflexivity|]. split; [exact Hbad|].
  apply (invalid_element_rejects_the_whole_batch parse_40_71 plain_text (constant_model [])
           [("locations", JList partly_invalid_items)] partly_invalid_items []).
  - reflexivity.
  - exact Hbad.
Defined.

(** ** Errors inside the [try] block *)

Section ErrorFacts.

Variable vstr : string -> list string -> string.
Variable model : Model.

(** The loop raises only on a row of fewer than six values, and never
    writes to the log. *)
Lemma format_predictions_raises (rows : list (list float)) :
  forall acc log e log',
    format_predictions vstr rows acc log = (Raise e, log') ->
    log' = log
    /\ Exists (fun row => List.length row < 6) rows
    /\ exists absent, e = ValidationError vstr "PredictionOutput" absent.
Proof.
  induction rows as [|row rows IH]; intros acc log e log' H.
  - discriminate H.
  - cbn [format_predictions] in H. unfold bind, lift in H.
    rewrite PredictionOutput_init_row in H.
    destruct (row_estimate row) as [out|] eqn:Hrow.
    + destruct (IH _ _ _ _ H) as (Hlog & Hex & Habs).
      repeat split; try assumption. now apply Exists_cons_tl.
    + injection H as <- <-. repeat split.
      * apply Exists_cons_hd. now apply row_estimate_none.
      * eexists. reflexivity.
Qed.

(** Where an exception of the [try] block comes from: the column check
    (table assembly), the call of the model, or the construction of an
    estimate (output mapping). *)
Lemma predict_body_raises (data : PredictionBatchInput) (log : list event)
    (e : exn) (log' : list event) :
  predict_body vstr model data log = (Raise e, log') ->
  (e = ValueError columns_message /\ log' = log)
  \/ (predict model (assembled data) = Raise e
      /\ log' = log ++ [Predicted (assembled data)])
  \/ (exists rows absent,
         predict model (assembled data) = Return rows
         /\ Exists (fun row => List.length row < 6) rows
         /\ e = ValidationError vstr "PredictionOutput" absent
         /\ log' = log ++ [Predicted (assembled data)]).
Proof.
  intros H. destruct (locations data) as [|loc locs] eqn:Hlocs.
  - rewrite (predict_body_empty vstr model data log Hlocs) in H.
    injection H as <- <-. now left.
  - assert (Hne : locations data <> []) by (rewrite Hlocs; discriminate).
    rewrite (predict_body_nonempty vstr model data log Hne) in H.
    unfold assembled. rewrite (pd_DataFrame_batch _ Hne).
    unfold bind, call_predict in H.
    destruct (predict model (coordinate_table (locations data))) as [rows|e0] eqn:Hm.
    + apply format_predictions_raises in H. destruct H as (-> & Hex & absent & ->).
      right. right. exists rows, absent. repeat split; assumption.
    + injection H as <- <-. right. left. split; reflexivity.
Qed.

End ErrorFacts.

(** C7.  Whatever exception [e] the [try] block raises, the handler prints
    the diagnostic line for [e] and then raises an HTTP exception with
    status 500 whose detail ends with the message of [e].  The exception
    comes from the column check, from the call of the model or from the
    construction of an estimate, and in each case the model has been called
    at most once: nothing is tried again. *)
Theorem every_error_is_logged_then_surfaced_as_500 :
  forall (vstr : string -> list string -> string) (model : Model)
         (data : PredictionBatchInput) (log : list event) (e : exn) (log' : list event),
    predict_body vstr model data log = (Raise e, log') ->
    predict_air_quality vstr model data log
    = (Raise {| status_code := 500; detail := "Internal Server Error: " ++ str e |},
       log' ++ [Printed ("Prediction Error: " ++ str e)])
    /\ invocations (log' ++ [Printed ("Prediction Error: " ++ str e)])
       <= S (invocations log)
    /\ ((e = ValueError columns_message /\ log' = log)
        \/ (predict model (assembled data) = Raise e
            /\ log' = log ++ [Predicted (assembled data)])
        \/ (exists rows absent,
               predict model (assembled data) = Return rows
               /\ Exists (fun row => List.length row < 6) rows
               /\ e = ValidationError vstr "PredictionOutput" absent
               /\ log' = log ++ [Predicted (assembled data)])).
Proof.
  intros vstr model data log e log' H.
  pose proof (predict_body_raises vstr model data log e log' H) as Hstage.
  split; [|split; [|exact Hstage]].
  - unfold predict_air_quality, try_except. rewrite H. reflexivity.
  - rewrite invocations_app.
    destruct Hstage as [[_ ->] | [[_ ->] | (rows & absent & _ & _ & _ & ->)]];
      try rewrite invocations_app; simpl; lia.
Qed.

Lemma every_error_is_logged_then_surfaced_as_500_witness :
  predict_body plain_text (raising_model (Exn "XGBoostError" "feature_names mismatch"))
    {| locations := [new_york] |} []
  = (Raise (Exn "XGBoostError" "feature_names mismatch"),
     [Predicted (assembled {| locations := [new_york] |})])
  /\ predict_air_quality plain_text
       (raising_model (Exn "XGBoostError" "feature_names mismatch"))
       {| locations := [new_york] |} []
     = (Raise {| status_code := 500;
                 detail := "Internal Server Error: feature_names mismatch" |},
        [Predicted (assembled {| locations := [new_york] |});
         Printed "Prediction Error: feature_names mismatch"]).
Proof.
  split; [reflexivity|].
  apply (every_error_is_logged_then_surfaced_as_500 plain_text
           (raising_model (Exn "XGBoostError" "feature_names mismatch"))
           {| locations := [new_york] |} []
           (Exn "XGBoostError" "feature_names mismatch")
           [Predicted (assembled {| locations := [new_york] |})]).
  reflexivity.
Defined.

(** ** Rows of other widths *)

(** C9.  Once the model has answered a non-empty batch: if every row holds
    six values or more, the handler returns one estimate per row, built from
    the first six values of the row, whatever follows them; if some row
    holds fewer than six values, the handler raises an HTTP exception with
    status 500, carrying the validation error of [PredictionOutput]. *)
Theorem long_rows_are_truncated_and_short_rows_fail :
  forall (vstr : string -> list string -> string) (model : Model)
         (data : PredictionBatchInput) (log : list event) (rows : list (list float)),
    locations data <> [] ->
    predict model (assembled data) = Return rows ->
    (Forall (fun row => 6 <= List.length row) rows ->
     exists outs,
       predict_air_quality vstr model data log
       = (Return outs, log ++ [Predicted (assembled data)])
       /\ Forall2 (fun row out => row_estimate (firstn 6 row) = Some out) rows outs)
    /\ (Exists (fun row => List.length row < 6) rows ->
        exists absent,
          predict_air_quality vstr model data log
          = (Raise {| status_code := 500;
                      detail := "Internal Server Error: "
                                ++ str (ValidationError vstr "PredictionOutput" absent) |},
             log ++ [Predicted (assembled data)]
                 ++ [Printed ("Prediction Error: "
                              ++ str (ValidationError vstr "PredictionOutput" absent))])).
Proof.
  intros vstr model data log rows Hne Hm.
  unfold assembled in *. rewrite (pd_DataFrame_batch _ Hne) in *. split.
  - intros Hrows. destruct (rows_have_estimates rows Hrows) as [outs Houts].
    exists outs. split.
    + now apply predict_air_quality_returns with (rows := rows).
    + eapply Forall2_impl; [|exact Houts].
      intros row out Hrow. now rewrite row_estimate_firstn.
  - intros Hshort.
    destruct (predict_air_quality_short_row vstr model data log rows Hne Hm Hshort)
      as [absent Hrun].
    exists absent. exact Hrun.
Qed.

Lemma long_rows_are_truncated_and_short_rows_fail_witness :
  locations {| locations := [new_york] |} <> []
  /\ (exists outs,
        predict_air_quality plain_text
          (constant_model [[1; 2; 3; 4; 5; 6; 7; 8]]%float)
          {| locations := [new_york] |} []
        = (Return outs, [Predicted (assembled {| locations := [new_york] |})])
        /\ Forall2 (fun row out => row_estimate (firstn 6 row) = Some out)
             [[1; 2; 3; 4; 5; 6; 7; 8]]%float outs)
  /\ (exists absent,
        predict_air_quality plain_text
          (constant_model [[1; 2; 3; 4; 5]]%float)
          {| locations := [new_york] |} []
        = (Raise {| status_code := 500;
                    detail := "Internal Server Error: "
                              ++ str (ValidationError plain_text "PredictionOutput" absent) |},
           [Predicted (assembled {| locations := [new_york] |})]
             ++ [Printed ("Prediction Error: "
                          ++ str (ValidationError plain_text "PredictionOutput" absent))])).
Proof.
  split; [discriminate|]. split.
  - apply (long_rows_are_truncated_and_short_rows_fail plain_text
             (constant_model [[1; 2; 3; 4; 5; 6; 7; 8]]%float)
             {| locations := [new_york] |} [] [[1; 2; 3; 4; 5; 6; 7; 8]]%float).
    + discriminate.
    + reflexivity.
    + repeat constructor.
  - apply (long_rows_are_truncated_and_short_rows_fail plain_text
             (constant_model [[1; 2; 3; 4; 5]]%float)
             {| locations := [new_york] |} [] [[1; 2; 3; 4; 5]]%float).
    + discriminate.
    + reflexivity.
    + apply Exists_cons_hd. simpl. lia.
Defined.

(** ** Startup *)

(** C8.  When the artifact file does not exist, the import raises
    [FileNotFoundError] and the process answers no request; when the file
    exists and loading it raises [e], the import raises [RuntimeError] and
    again no request is answered.  The two exceptions differ in class and
    in message, whatever [e] is.  When loading succeeds and the success line
    can be printed, the requests are served by the loaded model; when
    printing it raises, that exception too comes out as a [RuntimeError]
    and no request is answered. *)
Theorem missing_artifact_is_fatal_and_told_apart :
  forall (path_exists : string -> bool) (joblib_load : string -> result exn Model)
         (print_raises : string -> option exn)
         (float_of_str : string -> option float)
         (vstr : string -> list string -> string)
         (bodies : list json) (log : list event),
    (path_exists MODEL_PATH = false ->
     main path_exists joblib_load print_raises float_of_str vstr bodies log
     = (Raise (Exn "FileNotFoundError"
                 "Model file not found at: xgboost_air_quality_model.joblib. Please ensure 'xgboost_air_quality_model.joblib' is in the same directory."),
        log))
    /\ (forall e : exn,
           path_exists MODEL_PATH = true ->
           joblib_load MODEL_PATH = Raise e ->
           main path_exists joblib_load print_raises float_of_str vstr bodies log
           = (Raise (Exn "RuntimeError" ("Failed to load the model: " ++ str e)), log)
           /\ "RuntimeError" <> "FileNotFoundError"
           /\ ("Failed to load the model: " ++ str e)%string
              <> "Model file not found at: xgboost_air_quality_model.joblib. Please ensure 'xgboost_air_quality_model.joblib' is in the same directory.")
    /\ (forall model : Model,
           path_exists MODEL_PATH = true ->
           joblib_load MODEL_PATH = Return model ->
           (print_raises "✅ Model loaded successfully!" = None ->
            main path_exists joblib_load print_raises float_of_str vstr bodies log
            = (Return (fst (serve float_of_str vstr model bodies
                              (log ++ [Printed "✅ Model loaded successfully!"]))),
               snd (serve float_of_str vstr model bodies
                      (log ++ [Printed "✅ Model loaded successfully!"]))))
           /\ (forall e : exn,
                  print_raises "✅ Model loaded successfully!" = Some e ->
                  main path_exists joblib_load print_raises float_of_str vstr bodies log
                  = (Raise (Exn "RuntimeError" ("Failed to load the model: " ++ str e)),
                     log))).
Proof.
  intros path_exists joblib_load print_raises float_of_str vstr bodies log.
  split; [|split].
  - intros H. unfold main, load_model. rewrite H. reflexivity.
  - intros e Hp Hl. split; [|split].
    + unfold main, load_model, try_except, bind, lift. rewrite Hp, Hl. reflexivity.
    + discriminate.
    + simpl. discriminate.
  - intros model Hp Hl. split.
    + intros Hprint.
      unfold main, load_model, try_except, bind, lift, print_on_stdout, ret.
      rewrite Hp, Hl, Hprint. cbn [negb]. cbv beta iota.
      destruct (serve float_of_str vstr model bodies
                  (log ++ [Printed "✅ Model loaded successfully!"])) as [rs log2].
      reflexivity.
    + intros e Hprint.
      unfold main, load_model, try_except, bind, lift, print_on_stdout, raise.
      rewrite Hp, Hl, Hprint. reflexivity.
Qed.

Lemma missing_artifact_is_fatal_and_told_apart_witness :
  (fun _ : string => false) MODEL_PATH = false
  /\ main (fun _ => false) (fun _ => Return (constant_model [])) prints_everything
       parse_40_71 plain_text
       [batch_body [location (JFloat 40.71) (JFloat (-74.00))]] []
     = (Raise (Exn "FileNotFoundError"
                 "Model file not found at: xgboost_air_quality_model.joblib. Please ensure 'xgboost_air_quality_model.joblib' is in the same directory."),
        []).
Proof.
  split; [reflexivity|].
  apply (missing_artifact_is_fatal_and_told_apart
           (fun _ => false) (fun _ => Return (constant_model [])) prints_everything
           parse_40_71 plain_text
           [batch_body [location (JFloat 40.71) (JFloat (-74.00))]] []).
  reflexivity.
Defined.

(** ** Coercion of field values *)

Section CoercionFacts.

Variable float_of_str : string -> option float.
Variable vstr : string -> list string -> string.
Variable model : Model.

Lemma format_predictions_log (rows : list (list float)) :
  forall acc log, snd (format_predictions vstr rows acc log) = log.
Proof.
  induction rows as [|row rows IH]; intros acc log; [reflexivity|].
  cbn [format_predictions]. unfold bind, lift.
  destruct (PredictionOutput_init vstr (dict_of (zip output_targets row))) as [out|e];
    [apply IH | reflexivity].
Qed.

(** A valid non-empty batch always reaches the model, with the table of its
    coordinates, and is never answered with 422. *)
Lemma valid_batch_reaches_the_model (body : json) (data : PredictionBatchInput)
    (log : list event) :
  validate_PredictionBatchInput float_of_str body = Return data ->
  locations data <> [] ->
  exists r rest,
    post_predict float_of_str vstr model body log
    = (r, log ++ Predicted (coordinate_table (locations data)) :: rest)
    /\ response_status r <> 422%Z.
Proof.
  intros Hv Hne. unfold post_predict. rewrite Hv.
  unfold predict_air_quality, try_except.
  rewrite (predict_body_nonempty vstr model data log Hne).
  unfold bind at 1, call_predict.
  destruct (predict model (coordinate_table (locations data))) as [rows|e].
  - pose proof (format_predictions_log rows []
                  (log ++ [Predicted (coordinate_table (locations data))])) as Hlog.
    destruct (format_predictions vstr rows []
                (log ++ [Predicted (coordinate_table (locations data))]))
      as [[outs|e] log1]; simpl in Hlog; subst log1.
    + exists (Success outs), []. split; [reflexivity | discriminate].
    + eexists (Failure _), [_]. unfold bind, print, raise.
      rewrite <- app_assoc. split; [reflexivity | discriminate].
  - eexists (Failure _), [_]. unfold bind, print, raise.
    rewrite <- app_assoc. split; [reflexivity | discriminate].
Qed.

Lemma validate_location (lat lon : json) (x y : float) :
  float_value float_of_str lat x ->
  float_value float_of_str lon y ->
  validate_PredictionInput float_of_str (location lat lon)
  = Return {| Latitude := x; Longitude := y |}.
Proof.
  intros Hx Hy. unfold validate_PredictionInput, location.
  rewrite (validate_field_value float_of_str
             [("Latitude", lat); ("Longitude", lon)] "Latitude" lat x eq_refl Hx).
  rewrite (validate_field_value float_of_str
             [("Latitude", lat); ("Longitude", lon)] "Longitude" lon y eq_refl Hy).
  reflexivity.
Qed.

Lemma rejected_location (lat lon : json) (errors : list ErrorDetails) :
  validate_PredictionInput float_of_str (location lat lon) = Raise errors ->
  ~ convertible float_of_str lat \/ ~ convertible float_of_str lon.
Proof.
  intros H.
  destruct (validate_float float_of_str lat) as [x|t] eqn:Hx.
  - destruct (validate_float float_of_str lon) as [y|t] eqn:Hy.
    + apply validate_float_value in Hx, Hy.
      rewrite (validate_location lat lon x y Hx Hy) in H. discriminate H.
    + right. apply validate_float_rejects. now exists t.
  - left. apply validate_float_rejects. now exists t.
Qed.

End CoercionFacts.

(** ** Integers as floats *)

Lemma digits2_pos_bounds (p : positive) :
  (2 ^ (Zpos (digits2_pos p) - 1) <= Zpos p < 2 ^ Zpos (digits2_pos p))%Z.
Proof.
  induction p as [p IH | p IH |]; cbn [digits2_pos].
  - rewrite Pos2Z.inj_succ.
    replace (Z.succ (Zpos (digits2_pos p)) - 1)%Z
      with (Z.succ (Zpos (digits2_pos p) - 1))%Z by lia.
    rewrite !Z.pow_succ_r by lia. lia.
  - rewrite Pos2Z.inj_succ.
    replace (Z.succ (Zpos (digits2_pos p)) - 1)%Z
      with (Z.succ (Zpos (digits2_pos p) - 1))%Z by lia.
    rewrite !Z.pow_succ_r by lia. lia.
  - simpl. lia.
Qed.

Lemma digits2_pos_le_53 (p : positive) :
  (Zpos p < 2 ^ 53)%Z -> (Zpos (digits2_pos p) <= 53)%Z.
Proof.
  intros H. destruct (digits2_pos_bounds p) as [Hlo _].
  destruct (Z_le_gt_dec (Zpos (digits2_pos p)) 53) as [Hle | Hgt]; [exact Hle|].
  exfalso.
  assert (2 ^ 53 <= 2 ^ (Zpos (digits2_pos p) - 1))%Z
    by (apply Z.pow_le_mono_r; lia).
  lia.
Qed.

Lemma iter_xO_digits (p k : positive) :
  digits2_pos (Pos.iter xO p k) = (digits2_pos p + k)%positive.
Proof.
  induction k as [|k IH] using Pos.peano_ind.
  - simpl. lia.
  - rewrite Pos.iter_succ. cbn [digits2_pos]. rewrite IH. lia.
Qed.

Lemma iter_xO_value (p k : positive) :
  Zpos (Pos.iter xO p k) = (Zpos p * 2 ^ Zpos k)%Z.
Proof.
  induction k as [|k IH] using Pos.peano_ind.
  - simpl. lia.
  - rewrite Pos.iter_succ, Pos2Z.inj_xO, IH, Pos2Z.inj_succ, Z.pow_succ_r by lia. lia.
Qed.

(** Rounding a mantissa of 53 binary digits, with an exponent in range,
    changes nothing. *)
Lemma binary_round_aux_exact (s : bool) (m : positive) (e : Z) :
  Zpos (digits2_pos m) = 53%Z -> (-1074 <= e <= 971)%Z ->
  binary_round_aux prec emax s (Zpos m) e loc_Exact = S754_finite s m e.
Proof.
  intros Hd He.
  assert (Hf : (fexp prec emax (Zpos (digits2_pos m) + e) - e = 0)%Z).
  { unfold fexp, emin, prec, emax. rewrite Hd. lia. }
  unfold binary_round_aux, shr_fexp. cbn [Zdigits2 shr_record_of_loc].
  rewrite Hf. cbn [shr loc_of_shr_record shr_m round_nearest_even].
  cbn [Zdigits2]. rewrite Hf. cbn [shr shr_m].
  replace (e <=? emax - prec)%Z with true; [reflexivity|].
  symmetry. apply Z.leb_le. unfold emax, prec. lia.
Qed.

(** A positive integer below 2^53 is only shifted into place. *)
Lemma binary_round_small (s : bool) (p : positive) :
  (Zpos p < 2 ^ 53)%Z ->
  exists m e,
    binary_round prec emax s p 0 = S754_finite s m e
    /\ Zpos (digits2_pos m) = 53%Z /\ (-52 <= e <= 0)%Z
    /\ Zpos m = (Zpos p * 2 ^ (- e))%Z.
Proof.
  intros Hp. pose proof (digits2_pos_le_53 p Hp) as Hd.
  assert (Hd1 : (1 <= Zpos (digits2_pos p))%Z) by lia.
  unfold binary_round, shl_align.
  assert (Hf : fexp prec emax (Zpos (digits2_pos p) + 0)
               = (Zpos (digits2_pos p) - 53)%Z).
  { unfold fexp, emin, prec, emax. lia. }
  rewrite Hf.
  destruct (Zpos (digits2_pos p) - 53 - 0)%Z as [|k|k] eqn:Hk.
  - exists p, 0%Z. split; [|repeat split; try lia].
    apply binary_round_aux_exact; lia.
  - lia.
  - exists (Pos.iter xO p k), (Zpos (digits2_pos p) - 53)%Z.
    assert (Hdk : Zpos (digits2_pos (Pos.iter xO p k)) = 53%Z).
    { rewrite iter_xO_digits. lia. }
    split; [|repeat split; try lia].
    + apply binary_round_aux_exact; [exact Hdk | lia].
    + rewrite iter_xO_value. f_equal. f_equal. lia.
Qed.

Lemma valid_binary_53 (s : bool) (m : positive) (e : Z) :
  Zpos (digits2_pos m) = 53%Z -> (-52 <= e <= 0)%Z ->
  valid_binary (S754_finite s m e) = true.
Proof.
  intros Hd He.
  unfold valid_binary, bounded, canonical_mantissa, fexp, emin, prec, emax.
  rewrite Hd. apply andb_true_intro. split; [apply Z.eqb_eq | apply Z.leb_le]; lia.
Qed.

(** Every integer of magnitude below 2^53 has a float, and that float has
    exactly the integer's value. *)
Lemma int_to_float_exact (n : Z) :
  (Z.abs n < 2 ^ 53)%Z ->
  exists x, int_to_float n = Some x /\ float_is_integer x n.
Proof.
  intros Hn. unfold int_to_float, binary_normalize.
  destruct n as [|p|p].
  - exists (SF2Prim (S754_zero false)). split; [reflexivity|].
    unfold float_is_integer. rewrite Prim2SF_SF2Prim by reflexivity. reflexivity.
  - destruct (binary_round_small false p Hn) as (m & e & -> & Hd & He & Hm).
    exists (SF2Prim (S754_finite false m e)). split; [reflexivity|].
    unfold float_is_integer. rewrite (Prim2SF_SF2Prim _ (valid_binary_53 _ m e Hd He)).
    cbn [cond_Zopp]. rewrite Hm.
    replace (Z.max 0 e) with 0%Z by lia.
    replace (Z.max 0 (- e)) with (- e)%Z by lia.
    rewrite Z.pow_0_r. lia.
  - assert (Hp : (Zpos p < 2 ^ 53)%Z) by lia.
    destruct (binary_round_small true p Hp) as (m & e & -> & Hd & He & Hm).
    exists (SF2Prim (S754_finite true m e)). split; [reflexivity|].
    unfold float_is_integer. rewrite (Prim2SF_SF2Prim _ (valid_binary_53 _ m e Hd He)).
    cbn [cond_Zopp]. rewrite Hm.
    replace (Z.max 0 e) with 0%Z by lia.
    replace (Z.max 0 (- e)) with (- e)%Z by lia.
    rewrite Z.pow_0_r. lia.
Qed.

(** ** Decimal numerals as floats *)

Lemma split_digits_point (d : Decimal.uint) (t : string) :
  split_at_point (NilEmpty.string_of_uint d ++ String "." t)%string
  = (NilEmpty.string_of_uint d, Some t).
Proof. induction d; simpl; rewrite ?IHd; reflexivity. Qed.

Lemma split_digits_only (d : Decimal.uint) :
  split_at_point (NilEmpty.string_of_uint d) = (NilEmpty.string_of_uint d, None).
Proof. induction d; simpl; rewrite ?IHd; reflexivity. Qed.

Lemma strip_sign_digits (d : Decimal.uint) (t : string) :
  d <> Decimal.Nil ->
  strip_sign (NilEmpty.string_of_uint d ++ t)%string
  = (false, (NilEmpty.string_of_uint d ++ t)%string).
Proof. destruct d; intros H; [congruence | reflexivity ..]. Qed.

Lemma strip_sign_numeral (neg : bool) (i : Decimal.uint) (t : string) :
  i <> Decimal.Nil ->
  strip_sign ((if neg then "-" else "") ++ NilEmpty.string_of_uint i ++ t)%string
  = (neg, (NilEmpty.string_of_uint i ++ t)%string).
Proof.
  intros H. destruct neg; [reflexivity|]. now apply strip_sign_digits.
Qed.

Lemma digits_of_string_of_uint (d : Decimal.uint) :
  d <> Decimal.Nil -> digits_of_string (NilEmpty.string_of_uint d) = Some d.
Proof.
  intros H. unfold digits_of_string. rewrite NilEmpty.usu.
  destruct d; [congruence | reflexivity ..].
Qed.

Lemma append_empty (s : string) : (s ++ "")%string = s.
Proof. induction s as [|c s IH]; [reflexivity | cbn; now rewrite IH]. Qed.

(** Every numeral with a fraction spells the float nearest to its value. *)
Lemma decimal_float_numeral (neg : bool) (i f : Decimal.uint) :
  i <> Decimal.Nil -> f <> Decimal.Nil ->
  decimal_float (numeral neg i (Some f))
  = Some (round_decimal neg (Z.of_uint (Decimal.app i f)) (Decimal.nb_digits f)).
Proof.
  intros Hi Hf. unfold decimal_float, numeral.
  rewrite (strip_sign_numeral neg i _ Hi), split_digits_point.
  now rewrite (digits_of_string_of_uint i Hi), (digits_of_string_of_uint f Hf).
Qed.

(** So does every numeral without one. *)
Lemma decimal_float_integer_numeral (neg : bool) (i : Decimal.uint) :
  i <> Decimal.Nil ->
  decimal_float (numeral neg i None) = Some (round_decimal neg (Z.of_uint i) 0).
Proof.
  intros Hi. unfold decimal_float, numeral.
  rewrite (strip_sign_numeral neg i _ Hi), append_empty, split_digits_only.
  now rewrite (digits_of_string_of_uint i Hi).
Qed.

(** The reading of numerals agrees with the kernel's own reading of float
    literals. *)
Example decimal_float_samples :
  decimal_float "40.71" = Some 40.71%float
  /\ decimal_float "-74.00" = Some (-74.00)%float
  /\ decimal_float "34.05" = Some 34.05%float
  /\ decimal_float "-118.24" = Some (-118.24)%float
  /\ decimal_float "0.1" = Some 0.1%float
  /\ decimal_float "9007199254740993" = Some 9007199254740992%float
  /\ decimal_float "forty" = None.
Proof. repeat split. Qed.

(** C10.  Integers and numeric strings are accepted for Latitude and
    Longitude and stand for their float value.  Every integer of magnitude
    below 2^53 is accepted as the float whose value is exactly that
    integer; larger integers are rounded to the nearest float (2^53 + 1
    becomes 2^53) and an integer beyond the range of floats is refused.
    For a string parser that reads decimal numerals, every numeral (sign,
    digits, optional fraction) is accepted as the float nearest to its
    value, "40.71" as 40.71.  A location whose two values are convertible
    is accepted as the location of their float values: the request is
    answered exactly as the request that carries those floats, the model is
    called on the row of the two floats, and the answer is not a validation
    failure.  A location is rejected only when one of its two values is
    not convertible. *)
Theorem convertible_values_are_coerced :
  forall (float_of_str : string -> option float)
         (vstr : string -> list string -> string) (model : Model) (log : list event),
    reads_decimal_numerals float_of_str ->
    (forall n : Z,
        (Z.abs n < 2 ^ 53)%Z ->
        exists x, validate_float float_of_str (JInt n) = Return x
                  /\ float_is_integer x n)
    /\ validate_float float_of_str (JInt (2 ^ 53 + 1)) = Return 9007199254740992%float
    /\ validate_float float_of_str (JInt (10 ^ 400)) = Raise float_type
    /\ (forall (neg : bool) (i f : Decimal.uint),
           i <> Decimal.Nil -> f <> Decimal.Nil ->
           validate_float float_of_str (JStr (numeral neg i (Some f)))
           = Return (round_decimal neg (Z.of_uint (Decimal.app i f))
                       (Decimal.nb_digits f)))
    /\ (forall (neg : bool) (i : Decimal.uint),
           i <> Decimal.Nil ->
           validate_float float_of_str (JStr (numeral neg i None))
           = Return (round_decimal neg (Z.of_uint i) 0))
    /\ validate_float float_of_str (JStr "40.71") = Return 40.71%float
    /\ (forall (lat lon : json) (x y : float),
           float_value float_of_str lat x ->
           float_value float_of_str lon y ->
           validate_PredictionInput float_of_str (location lat lon)
           = Return {| Latitude := x; Longitude := y |}
           /\ post_predict float_of_str vstr model (batch_body [location lat lon]) log
              = post_predict float_of_str vstr model
                  (batch_body [location (JFloat x) (JFloat y)]) log
           /\ (exists r rest,
                  post_predict float_of_str vstr model (batch_body [location lat lon]) log
                  = (r, log ++ Predicted {| columns := ["Latitude"; "Longitude"];
                                            values := [[x; y]] |} :: rest)
                  /\ response_status r <> 422%Z))
    /\ post_predict float_of_str vstr model
         (batch_body [location (JStr "40.71") (JInt (-74))]) log
       = post_predict float_of_str vstr model
           (batch_body [location (JFloat 40.71) (JFloat (-74.00))]) log
    /\ (forall (lat' lon' : json) (errors : list ErrorDetails),
           validate_PredictionInput float_of_str (location lat' lon') = Raise errors ->
           ~ convertible float_of_str lat' \/ ~ convertible float_of_str lon').
Proof.
  intros float_of_str vstr model log Hreads.
  assert (Hbody : forall a b x y,
             validate_PredictionInput float_of_str (location a b)
             = Return {| Latitude := x; Longitude := y |} ->
             validate_PredictionBatchInput float_of_str (batch_body [location a b])
             = Return {| locations := [{| Latitude := x; Longitude := y |}] |}).
  { intros a b x y H. unfold validate_PredictionBatchInput, batch_body.
    change (dict_get [("locations", JList [location a b])] "locations")
      with (Some (JList [location a b])).
    cbn [validate_items]. now rewrite H. }
  assert (Hpair : forall lat lon x y,
             float_value float_of_str lat x ->
             float_value float_of_str lon y ->
             validate_PredictionInput float_of_str (location lat lon)
             = Return {| Latitude := x; Longitude := y |}
             /\ post_predict float_of_str vstr model (batch_body [location lat lon]) log
                = post_predict float_of_str vstr model
                    (batch_body [location (JFloat x) (JFloat y)]) log
             /\ (exists r rest,
                    post_predict float_of_str vstr model
                      (batch_body [location lat lon]) log
                    = (r, log ++ Predicted {| columns := ["Latitude"; "Longitude"];
                                              values := [[x; y]] |} :: rest)
                    /\ response_status r <> 422%Z)).
  { intros lat lon x y Hx Hy.
    pose proof (validate_location float_of_str lat lon x y Hx Hy) as Hloc.
    pose proof (validate_location float_of_str (JFloat x) (JFloat y) x y
                  (float_is_float _ x) (float_is_float _ y)) as Hloc'.
    split; [exact Hloc|]. split.
    - unfold post_predict. now rewrite (Hbody _ _ _ _ Hloc), (Hbody _ _ _ _ Hloc').
    - apply (valid_batch_reaches_the_model float_of_str vstr model _
               {| locations := [{| Latitude := x; Longitude := y |}] |} log
               (Hbody _ _ _ _ Hloc)).
      discriminate. }
  assert (H4071 : float_of_str "40.71" = Some 40.71%float)
    by (apply Hreads; reflexivity).
  repeat match goal with |- _ /\ _ => split end.
  - intros n Hn. destruct (int_to_float_exact n Hn) as (x & Hx & Hval).
    exists x. split; [|exact Hval]. cbn [validate_float]. now rewrite Hx.
  - reflexivity.
  - reflexivity.
  - intros neg i f Hi Hf. cbn [validate_float].
    now rewrite (Hreads _ _ (decimal_float_numeral neg i f Hi Hf)).
  - intros neg i Hi. cbn [validate_float].
    now rewrite (Hreads _ _ (decimal_float_integer_numeral neg i Hi)).
  - cbn [validate_float]. now rewrite H4071.
  - exact Hpair.
  - apply (Hpair (JStr "40.71") (JInt (-74)) 40.71%float (-74.00)%float).
    + now apply numeric_str_is_float.
    + apply int_is_float. reflexivity.
  - intros lat' lon' errors. apply rejected_location.
Qed.

Lemma convertible_values_are_coerced_witness :
  reads_decimal_numerals decimal_float
  /\ validate_float decimal_float (JStr "40.71") = Return 40.71%float
  /\ validate_float decimal_float (JInt (2 ^ 53 + 1)) = Return 9007199254740992%float
  /\ post_predict decimal_float plain_text
       (constant_model [[12.3; 20.1; 5.4; 3.2; 0.8; 1.1]]%float)
       (batch_body [location (JStr "40.71") (JInt (-74))]) []
     = post_predict decimal_float plain_text
         (constant_model [[12.3; 20.1; 5.4; 3.2; 0.8; 1.1]]%float)
         (batch_body [location (JFloat 40.71) (JFloat (-74.00))]) [].
Proof.
  assert (Hreads : reads_decimal_numerals decimal_float) by (intros s x H; exact H).
  split; [exact Hreads|].
  destruct (convertible_values_are_coerced decimal_float plain_text
              (constant_model [[12.3; 20.1; 5.4; 3.2; 0.8; 1.1]]%float) [] Hreads)
    as (_ & Hround & _ & _ & _ & H4071 & _ & Hsame & _).
  split; [exact H4071|]. split; [exact Hround | exact Hsame].
Defined.

(** * Further properties of the endpoint *)

(** ** The loop over the rows *)

Section LoopFacts.

Variable vstr : string -> list string -> string.

(** Either every row holds six values, or there is a first row that does
    not. *)
Lemma rows_wide_or_short (rows : list (list float)) :
  Forall (fun row => 6 <= List.length row) rows
  \/ exists good row rest,
       rows = good ++ row :: rest
       /\ Forall (fun r => 6 <= List.length r) good
       /\ List.length row < 6.
Proof.
  induction rows as [|r rows IH]; [left; constructor|].
  destruct (le_lt_dec 6 (List.length r)) as [Hr | Hr].
  - destruct IH as [IH | (good & row & rest & -> & Hgood & Hrow)].
    + left. now constructor.
    + right. exists (r :: good), row, rest. repeat split; trivial. now constructor.
  - right. exists [], r, rows. repeat split; trivial.
Qed.

(** The loop stops at the first row of fewer than six values; the
    exception names the pollutants that row leaves unbound. *)
Lemma format_predictions_first_short (good : list (list float)) :
  forall (row : list float) (rest : list (list float))
         (acc : list PredictionOutput) (log : list event),
    Forall (fun r => 6 <= List.length r) good ->
    List.length row < 6 ->
    format_predictions vstr (good ++ row :: rest) acc log
    = (Raise (ValidationError vstr "PredictionOutput"
                (skipn (List.length row) output_targets)), log).
Proof.
  induction good as [|g good IH]; intros row rest acc log Hgood Hrow.
  - rewrite app_nil_l. cbn [format_predictions]. unfold bind, lift.
    rewrite PredictionOutput_init_row.
    apply row_estimate_none in Hrow. now rewrite Hrow.
  - inversion Hgood as [|g' good' Hg Hgood']; subst.
    rewrite <- app_comm_cons. cbn [format_predictions]. unfold bind, lift.
    rewrite PredictionOutput_init_row.
    apply row_estimate_some in Hg. destruct Hg as [out Hout]. rewrite Hout.
    now apply IH.
Qed.

End LoopFacts.

(** ** The handler, case by case *)

Section HandlerFacts.

Variable vstr : string -> list string -> string.
Variable model : Model.

Lemma batch_empty_or_not (data : PredictionBatchInput) :
  locations data = [] \/ locations data <> [].
Proof.
  destruct (locations data); [left; reflexivity | right; discriminate].
Qed.

(** A run of the handler has one of three shapes: it returns after one call
    of the model; it raises on the empty batch without calling the model;
    or it raises after one call of the model. *)
Lemma predict_air_quality_outcome (data : PredictionBatchInput) (log : list event) :
  (exists outs,
      predict_air_quality vstr model data log
      = (Return outs, log ++ [Predicted (assembled data)]))
  \/ (locations data = []
      /\ predict_air_quality vstr model data log
         = (Raise (server_error (ValueError columns_message)),
            log ++ [diagnostic (ValueError columns_message)]))
  \/ (exists e,
         locations data <> []
         /\ predict_air_quality vstr model data log
            = (Raise (server_error e),
               log ++ [Predicted (assembled data); diagnostic e])).
Proof.
  destruct (batch_empty_or_not data) as [Hempty | Hne].
  - right. left. split; [exact Hempty|]. now apply predict_air_quality_empty.
  - unfold assembled. rewrite (pd_DataFrame_batch _ Hne).
    destruct (predict model (coordinate_table (locations data))) as [rows|e] eqn:Hm.
    + destruct (rows_wide_or_short rows) as [Hwide | (good & row & rest & -> & Hgood & Hrow)].
      * destruct (rows_have_estimates rows Hwide) as [outs Houts].
        left. exists outs. now apply predict_air_quality_returns with (rows := rows).
      * right. right.
        destruct (predict_air_quality_short_row vstr model data log
                    (good ++ row :: rest) Hne Hm) as [absent Hrun].
        { apply Exists_app. right. now apply Exists_cons_hd. }
        exists (ValidationError vstr "PredictionOutput" absent).
        split; [exact Hne | exact Hrun].
    + right. right. exists e. split; [exact Hne|].
      now apply predict_air_quality_model_raises.
Qed.

End HandlerFacts.

(** ** The endpoint, case by case *)

Section EndpointFacts.

Variable float_of_str : string -> option float.
Variable vstr : string -> list string -> string.
Variable model : Model.

Lemma post_predict_valid (body : json) (data : PredictionBatchInput) (log : list event) :
  validate_PredictionBatchInput float_of_str body = Return data ->
  post_predict float_of_str vstr model body log
  = match predict_air_quality vstr model data log with
    | (Return results, log') => (Success results, log')
    | (Raise e, log') => (Failure e, log')
    end.
Proof. intros H. unfold post_predict. now rewrite H. Qed.

End EndpointFacts.

(** X1.  A request whose body has been decoded from JSON ends, as far as
    validation and the function decide it, in one of four ways, each with
    its own trace: status 200 after exactly one call of the model and
    nothing printed; status 422 with the log untouched; status 500 with one
    line printed and no call of the model; status 500 with one call of the
    model followed by one printed line. *)
Theorem every_request_ends_in_200_422_or_500 :
  forall (float_of_str : string -> option float)
         (vstr : string -> list string -> string) (model : Model)
         (body : json) (log : list event),
    ((exists outs X,
         post_predict float_of_str vstr model body log
         = (Success outs, log ++ [Predicted X]))
     \/ (exists errors,
            post_predict float_of_str vstr model body log
            = (UnprocessableEntity errors, log))
     \/ (exists e,
            post_predict float_of_str vstr model body log
            = (Failure {| status_code := 500;
                          detail := "Internal Server Error: " ++ str e |},
               log ++ [Printed ("Prediction Error: " ++ str e)]))
     \/ (exists e X,
            post_predict float_of_str vstr model body log
            = (Failure {| status_code := 500;
                          detail := "Internal Server Error: " ++ str e |},
               log ++ [Predicted X; Printed ("Prediction Error: " ++ str e)])))
    /\ In (response_status (fst (post_predict float_of_str vstr model body log)))
          [200; 422; 500]%Z.
Proof.
  intros float_of_str vstr model body log.
  destruct (validate_PredictionBatchInput float_of_str body) as [data|errors] eqn:Hv.
  - rewrite (post_predict_valid float_of_str vstr model body data log Hv).
    destruct (predict_air_quality_outcome vstr model data log)
      as [[outs ->] | [[_ ->] | (e & _ & ->)]].
    + split; [left; now exists outs, (assembled data) | simpl; tauto].
    + split; [right; right; left; now exists (ValueError columns_message)
             | simpl; tauto].
    + split; [right; right; right; now exists e, (assembled data) | simpl; tauto].
  - unfold post_predict. rewrite Hv.
    split; [right; left; now exists errors | simpl; tauto].
Qed.

(** X3.  The model is called once for a request whose body is valid and
    holds at least one location, and not at all for any other request. *)
Theorem model_is_called_once_per_nonempty_valid_batch :
  forall (float_of_str : string -> option float)
         (vstr : string -> list string -> string) (model : Model)
         (body : json) (log : list event),
    invocations (snd (post_predict float_of_str vstr model body log))
    = invocations log
      + match validate_PredictionBatchInput float_of_str body with
        | Return {| locations := _ :: _ |} => 1
        | _ => 0
        end.
Proof.
  intros float_of_str vstr model body log.
  destruct (validate_PredictionBatchInput float_of_str body) as [data|errors] eqn:Hv.
  - rewrite (post_predict_valid float_of_str vstr model body data log Hv).
    destruct (predict_air_quality_outcome vstr model data log)
      as [[outs Hrun] | [[Hempty Hrun] | (e & Hne & Hrun)]].
    + assert (Hne : locations data <> []).
      { intros Hempty.
        rewrite (predict_air_quality_empty vstr model data log Hempty) in Hrun.
        discriminate Hrun. }
      rewrite Hrun. destruct data as [[|loc locs]]; [now elim Hne|].
      cbn [snd]. rewrite invocations_app. simpl. lia.
    + rewrite Hrun. destruct data as [locs]. simpl in Hempty. subst locs.
      cbn [snd]. rewrite invocations_app. simpl. lia.
    + rewrite Hrun. destruct data as [[|loc locs]]; [now elim Hne|].
      cbn [snd]. rewrite invocations_app. simpl. lia.
  - unfold post_predict. rewrite Hv. simpl. lia.
Qed.

(** ** Which bodies are accepted *)

Section AcceptanceFacts.

Variable float_of_str : string -> option float.

(** An element is accepted or it fails the schema in one of the three
    ways. *)
Lemma validated_or_fails (v : json) :
  (exists loc, validate_PredictionInput float_of_str v = Return loc)
  \/ fails_schema float_of_str v.
Proof.
  destruct v as [|b|n|x|s|items|members];
    try (right; apply not_an_object; discriminate).
  destruct (dict_get members "Latitude") as [lat|] eqn:Hlat;
    [|right; apply (field_absent _ members "Latitude"); [now left | exact Hlat]].
  destruct (dict_get members "Longitude") as [lon|] eqn:Hlon;
    [|right; apply (field_absent _ members "Longitude"); [now right | exact Hlon]].
  destruct (validate_float float_of_str lat) as [x|t] eqn:Hx.
  - destruct (validate_float float_of_str lon) as [y|t] eqn:Hy.
    + left. exists {| Latitude := x; Longitude := y |}.
      unfold validate_PredictionInput, validate_field.
      now rewrite Hlat, Hlon, Hx, Hy.
    + right. apply (field_not_numeric _ members "Longitude" lon);
        [now right | exact Hlon |].
      apply validate_float_rejects. now exists t.
  - right. apply (field_not_numeric _ members "Latitude" lat);
      [now left | exact Hlat |].
    apply validate_float_rejects. now exists t.
Qed.

Lemma rejected_element_fails_schema (v : json) (errors : list ErrorDetails) :
  validate_PredictionInput float_of_str v = Raise errors ->
  fails_schema float_of_str v.
Proof.
  intros H. destruct (validated_or_fails v) as [[loc Hloc] | Hf]; [congruence | exact Hf].
Qed.

Lemma validate_items_raises (items : list json) :
  forall (i : nat) (errors : list ErrorDetails),
    validate_items float_of_str i items = Raise errors ->
    Exists (fails_schema float_of_str) items.
Proof.
  induction items as [|v rest IH]; intros i errors H; [discriminate H|].
  cbn [validate_items] in H.
  destruct (validate_PredictionInput float_of_str v) as [x|e] eqn:Hv.
  - destruct (validate_items float_of_str (S i) rest) as [xs|es] eqn:Hrest;
      [discriminate H|].
    apply Exists_cons_tl. now apply (IH (S i) es).
  - apply Exists_cons_hd. now apply (rejected_element_fails_schema v e).
Qed.

(** The validated list holds, position by position, the validation of the
    submitted elements. *)
Lemma validate_items_returns (items : list json) :
  forall (i : nat) (locs : list PredictionInput),
    validate_items float_of_str i items = Return locs ->
    Forall2 (fun v loc => validate_PredictionInput float_of_str v = Return loc)
            items locs.
Proof.
  induction items as [|v rest IH]; intros i locs H.
  - injection H as <-. constructor.
  - cbn [validate_items] in H.
    destruct (validate_PredictionInput float_of_str v) as [x|e] eqn:Hv;
      destruct (validate_items float_of_str (S i) rest) as [xs|es] eqn:Hrest;
      try discriminate H.
    injection H as <-. constructor; [exact Hv | now apply (IH (S i))].
Qed.

End AcceptanceFacts.

(** X4.  For a body whose [locations] is a list, the answer is a 422
    exactly when some element fails the schema; and when the body is
    accepted, the function receives one location per submitted element, in
    the submitted order, each being the validation of its element. *)
Theorem body_is_rejected_exactly_when_an_element_fails :
  forall (float_of_str : string -> option float)
         (vstr : string -> list string -> string) (model : Model)
         (members : dict json) (items : list json) (log : list event),
    dict_get members "locations" = Some (JList items) ->
    ((exists errors,
         post_predict float_of_str vstr model (JDict members) log
         = (UnprocessableEntity errors, log))
     <-> Exists (fails_schema float_of_str) items)
    /\ (forall data,
           validate_PredictionBatchInput float_of_str (JDict members) = Return data ->
           Forall2 (fun v loc => validate_PredictionInput float_of_str v = Return loc)
                   items (locations data)).
Proof.
  intros float_of_str vstr model members items log Hget.
  split; [split|].
  - intros [errors Hrun]. unfold post_predict, validate_PredictionBatchInput in Hrun.
    rewrite Hget in Hrun.
    destruct (validate_items float_of_str 0 items) as [locs|es] eqn:Hitems.
    + destruct (predict_air_quality vstr model {| locations := locs |} log)
        as [[outs|e] log']; discriminate Hrun.
    + now apply (validate_items_raises float_of_str items 0 es).
  - intros Hbad.
    destruct (validate_items_rejects float_of_str items Hbad 0) as (es & Hes & _).
    exists (at_loc [Field "body"; Field "locations"] es).
    unfold post_predict, validate_PredictionBatchInput. now rewrite Hget, Hes.
  - intros data Hv. unfold validate_PredictionBatchInput in Hv. rewrite Hget in Hv.
    destruct (validate_items float_of_str 0 items) as [locs|es] eqn:Hitems;
      [|discriminate Hv].
    injection Hv as <-. now apply (validate_items_returns float_of_str items 0).
Qed.

Lemma body_is_rejected_exactly_when_an_element_fails_witness :
  dict_get [("locations", JList partly_invalid_items)] "locations"
  = Some (JList partly_invalid_items)
  /\ ((exists errors,
          post_predict parse_40_71 plain_text (constant_model [])
            (batch_body partly_invalid_items) []
          = (UnprocessableEntity errors, []))
      <-> Exists (fails_schema parse_40_71) partly_invalid_items).
Proof.
  split; [reflexivity|].
  apply (body_is_rejected_exactly_when_an_element_fails parse_40_71 plain_text
           (constant_model []) [("locations", JList partly_invalid_items)]
           partly_invalid_items []).
  reflexivity.
Defined.

(** ** When a request succeeds *)

(** X5.  For a model whose [predict] answers with a two-dimensional array
    of floats or raises: a request with a valid body is answered with
    status 200, after one call of the model, exactly when the batch is not
    empty and the model answers its table with an array whose rows all
    hold at least six values; in every other case it is answered with
    status 500. *)
Theorem request_succeeds_exactly_when :
  forall (float_of_str : string -> option float)
         (vstr : string -> list string -> string) (model : Model)
         (body : json) (data : PredictionBatchInput) (log : list event),
    validate_PredictionBatchInput float_of_str body = Return data ->
    ((exists outs log',
         post_predict float_of_str vstr model body log = (Success outs, log'))
     <-> (locations data <> []
          /\ exists rows,
               predict model (assembled data) = Return rows
               /\ Forall (fun row => 6 <= List.length row) rows))
    /\ ((exists outs,
            post_predict float_of_str vstr model body log
            = (Success outs, log ++ [Predicted (assembled data)]))
        \/ (exists (e : HTTPException) (log' : list event),
               post_predict float_of_str vstr model body log = (Failure e, log')
               /\ status_code e = 500%Z
               /\ response_status
                    (fst (post_predict float_of_str vstr model body log)) = 500%Z)).
Proof.
  intros float_of_str vstr model body data log Hv.
  rewrite (post_predict_valid float_of_str vstr model body data log Hv).
  split; [split|].
  - intros (outs & log' & Hrun).
    destruct (batch_empty_or_not data) as [Hempty | Hne].
    + rewrite (predict_air_quality_empty vstr model data log Hempty) in Hrun.
      discriminate Hrun.
    + split; [exact Hne|]. unfold assembled. rewrite (pd_DataFrame_batch _ Hne).
      destruct (predict model (coordinate_table (locations data))) as [rows|e] eqn:Hm.
      * exists rows. split; [reflexivity|].
        destruct (rows_wide_or_short rows)
          as [Hwide | (good & row & rest & -> & Hgood & Hrow)]; [exact Hwide|].
        destruct (predict_air_quality_short_row vstr model data log
                    (good ++ row :: rest) Hne Hm) as [absent Habs].
        { apply Exists_app. right. now apply Exists_cons_hd. }
        rewrite Habs in Hrun. discriminate Hrun.
      * rewrite (predict_air_quality_model_raises vstr model data log e Hne Hm) in Hrun.
        discriminate Hrun.
  - intros (Hne & rows & Hm & Hwide).
    unfold assembled in Hm. rewrite (pd_DataFrame_batch _ Hne) in Hm.
    destruct (rows_have_estimates rows Hwide) as [outs Houts].
    rewrite (predict_air_quality_returns vstr model data log rows outs Hne Hm Houts).
    now exists outs, (log ++ [Predicted (coordinate_table (locations data))]).
  - destruct (predict_air_quality_outcome vstr model data log)
      as [[outs ->] | [[_ ->] | (e & _ & ->)]].
    + left. now exists outs.
    + right. eexists. eexists. repeat split.
    + right. eexists. eexists. repeat split.
Qed.

Lemma request_succeeds_exactly_when_witness :
  validate_PredictionBatchInput parse_40_71
    (batch_body [location (JStr "40.71") (JInt (-74))])
  = Return {| locations := [new_york] |}
  /\ ((exists outs log',
          post_predict parse_40_71 plain_text (constant_model [[1; 2; 3; 4; 5; 6]]%float)
            (batch_body [location (JStr "40.71") (JInt (-74))]) []
          = (Success outs, log'))
      <-> (locations {| locations := [new_york] |} <> []
           /\ exists rows,
                predict (constant_model [[1; 2; 3; 4; 5; 6]]%float)
                  (assembled {| locations := [new_york] |}) = Return rows
                /\ Forall (fun row => 6 <= List.length row) rows)).
Proof.
  split; [reflexivity|].
  apply (request_succeeds_exactly_when parse_40_71 plain_text
           (constant_model [[1; 2; 3; 4; 5; 6]]%float)
           (batch_body [location (JStr "40.71") (JInt (-74))])
           {| locations := [new_york] |} []).
  reflexivity.
Defined.

(** ** The first short row *)

(** X6.  When the model's answer to a non-empty batch has a first row of
    fewer than six values, say k values after some rows of six or more, the
    handler raises the 500 that carries the validation error naming the
    last 6 - k pollutants; the estimates already built from the earlier
    rows are dropped and the rows after it are not looked at. *)
Theorem first_short_row_decides_the_error :
  forall (vstr : string -> list string -> string) (model : Model)
         (data : PredictionBatchInput) (log : list event)
         (good : list (list float)) (row : list float) (rest : list (list float)),
    locations data <> [] ->
    predict model (assembled data) = Return (good ++ row :: rest) ->
    Forall (fun r => 6 <= List.length r) good ->
    List.length row < 6 ->
    predict_air_quality vstr model data log
    = (Raise {| status_code := 500;
                detail := "Internal Server Error: "
                          ++ vstr "PredictionOutput"
                               (skipn (List.length row)
                                  ["PM2_5"; "PM10"; "O3"; "NO2"; "CO"; "SO2"]) |},
       log ++ [Predicted (assembled data);
               Printed ("Prediction Error: "
                        ++ vstr "PredictionOutput"
                             (skipn (List.length row)
                                ["PM2_5"; "PM10"; "O3"; "NO2"; "CO"; "SO2"]))]).
Proof.
  intros vstr model data log good row rest Hne Hm Hgood Hrow.
  unfold assembled in *. rewrite (pd_DataFrame_batch _ Hne) in *.
  unfold predict_air_quality, try_except.
  rewrite (predict_body_nonempty vstr model data log Hne).
  unfold bind at 1, call_predict. rewrite Hm.
  rewrite (format_predictions_first_short vstr good row rest [] _ Hgood Hrow).
  unfold bind, print, raise. cbn [str ValidationError].
  now rewrite <- app_assoc.
Qed.

Lemma first_short_row_decides_the_error_witness :
  locations {| locations := [new_york; new_york] |} <> []
  /\ predict_air_quality plain_text
       (constant_model [[1; 2; 3; 4; 5; 6]; [7; 8; 9; 10]; [11]]%float)
       {| locations := [new_york; new_york] |} []
     = (Raise {| status_code := 500;
                 detail := "Internal Server Error: PredictionOutput: CO, SO2" |},
        [Predicted (assembled {| locations := [new_york; new_york] |});
         Printed "Prediction Error: PredictionOutput: CO, SO2"]).
Proof.
  split; [discriminate|].
  apply (first_short_row_decides_the_error plain_text
           (constant_model [[1; 2; 3; 4; 5; 6]; [7; 8; 9; 10]; [11]]%float)
           {| locations := [new_york; new_york] |} []
           [[1; 2; 3; 4; 5; 6]]%float [7; 8; 9; 10]%float [[11]]%float).
  - discriminate.
  - reflexivity.
  - repeat constructor.
  - simpl. lia.
Defined.

(** ** The keyword dictionary of a row *)

(** X7.  In [dict(zip(output_targets, row))] the i-th pollutant name is
    bound to the i-th value of the row when the row has one, and is absent
    otherwise; the keys are the first names, as many as the row has values
    (six at most), in the fixed order. *)
Theorem prediction_dict_binds_values_in_order :
  forall (pred : list float) (i : nat) (name : string),
    nth_error output_targets i = Some name ->
    dict_get (dict_of (zip output_targets pred)) name = nth_error pred i
    /\ map fst (dict_of (zip output_targets pred))
       = firstn (List.length pred) output_targets.
Proof.
  intros pred i name Hname.
  destruct i as [|[|[|[|[|[|i]]]]]]; simpl in Hname;
    try (destruct i; discriminate Hname);
    injection Hname as <-;
    destruct pred as [|a [|b [|c [|d [|e [|f rest]]]]]]; split; try reflexivity;
    cbn; now rewrite firstn_nil.
Qed.

Lemma prediction_dict_binds_values_in_order_witness :
  nth_error output_targets 3 = Some "NO2"
  /\ dict_get (dict_of (zip output_targets [12.3; 20.1; 5.4; 3.2]%float)) "NO2"
     = nth_error [12.3; 20.1; 5.4; 3.2]%float 3
  /\ map fst (dict_of (zip output_targets [12.3; 20.1; 5.4; 3.2]%float))
     = firstn (List.length [12.3; 20.1; 5.4; 3.2]%float) output_targets.
Proof.
  split; [reflexivity|].
  apply (prediction_dict_binds_values_in_order [12.3; 20.1; 5.4; 3.2]%float 3 "NO2").
  reflexivity.
Defined.

(** ** Startup, case by case *)

(** X8.  The import succeeds exactly when the artifact file exists,
    [joblib.load] returns and the success line can be printed; the model it
    binds is the one [joblib.load] returned, and the success line is in the
    output then and only then.  A failed import prints nothing.  Its
    exception is [FileNotFoundError] only when the file is absent; once the
    file exists, an exception of the load, or of the print that follows a
    successful load, comes out as a [RuntimeError] whose message ends with
    the message of the cause, whatever the class of the cause. *)
Theorem startup_outcomes :
  forall (path_exists : string -> bool) (joblib_load : string -> result exn Model)
         (print_raises : string -> option exn) (log : list event),
    (forall (model : Model) (log' : list event),
        load_model path_exists joblib_load print_raises log = (Return model, log')
        <-> (path_exists MODEL_PATH = true
             /\ joblib_load MODEL_PATH = Return model
             /\ print_raises "✅ Model loaded successfully!" = None
             /\ log' = log ++ [Printed "✅ Model loaded successfully!"]))
    /\ (forall (e : exn) (log' : list event),
           load_model path_exists joblib_load print_raises log = (Raise e, log') ->
           log' = log
           /\ ((exn_class e = "FileNotFoundError" /\ path_exists MODEL_PATH = false)
               \/ (exn_class e = "RuntimeError"
                   /\ path_exists MODEL_PATH = true
                   /\ exists cause,
                        str e = ("Failed to load the model: " ++ str cause)%string
                        /\ (joblib_load MODEL_PATH = Raise cause
                            \/ (exists model,
                                   joblib_load MODEL_PATH = Return model
                                   /\ print_raises "✅ Model loaded successfully!"
                                      = Some cause))))).
Proof.
  intros path_exists joblib_load print_raises log.
  unfold load_model, try_except, bind, lift, print_on_stdout, ret, raise.
  destruct (path_exists MODEL_PATH) eqn:Hp; cbn [negb];
    [destruct (joblib_load MODEL_PATH) as [m|cause] eqn:Hl;
     [destruct (print_raises "✅ Model loaded successfully!") as [cause|] eqn:Hw|]|];
    split.
  - intros model log'. split; [intros H; discriminate H|].
    intros (_ & _ & Hnone & _). discriminate Hnone.
  - intros e log' H. injection H as <- <-. split; [reflexivity|].
    right. repeat split. exists cause. split; [reflexivity|].
    right. now exists m.
  - intros model log'. split.
    + intros H. injection H as <- <-. repeat split.
    + intros (_ & Hm & _ & ->). injection Hm as <-. reflexivity.
  - intros e log' H. discriminate H.
  - intros model log'. split; [intros H; discriminate H|].
    intros (_ & Hm & _). discriminate Hm.
  - intros e log' H. injection H as <- <-. split; [reflexivity|].
    right. repeat split. exists cause. split; [reflexivity | now left].
  - intros model log'. split; [intros H; discriminate H|].
    intros (Hf & _). discriminate Hf.
  - intros e log' H. injection H as <- <-. split; [reflexivity|].
    left. split; reflexivity.
Qed.

Lemma startup_outcomes_witness :
  load_model (fun _ => true) (fun _ => Return (constant_model [])) ascii_only_stdout []
  = (Raise (Exn "RuntimeError"
              "Failed to load the model: 'charmap' codec can't encode character"), [])
  /\ exn_class (Exn "RuntimeError"
                  "Failed to load the model: 'charmap' codec can't encode character")
     = "RuntimeError".
Proof.
  split; [reflexivity|].
  destruct (proj2 (startup_outcomes (fun _ => true)
                     (fun _ => Return (constant_model [])) ascii_only_stdout [])
              (Exn "RuntimeError"
                 "Failed to load the model: 'charmap' codec can't encode character")
              [] eq_refl) as [_ [[_ Habsurd] | [Hclass _]]].
  - discriminate Habsurd.
  - exact Hclass.
Defined.

(** ** Where validation errors point *)

Section ErrorLocations.

Variable float_of_str : string -> option float.

Lemma validate_items_reports (items : list json) :
  forall (k i : nat) (v : json) (e : list ErrorDetails) (d : ErrorDetails),
    nth_error items i = Some v ->
    validate_PredictionInput float_of_str v = Raise e ->
    In d e ->
    exists errors,
      validate_items float_of_str k items = Raise errors
      /\ In {| loc := Index (k + i) :: loc d; err_type := err_type d |} errors.
Proof.
  induction items as [|v0 rest IH]; intros k i v e d Hi Hv Hd.
  - destruct i; discriminate Hi.
  - destruct i as [|i]; simpl in Hi.
    + injection Hi as ->. cbn [validate_items]. rewrite Hv, Nat.add_0_r.
      assert (Hin : In {| loc := Index k :: loc d; err_type := err_type d |}
                       (at_loc [Index k] e)).
      { unfold at_loc.
        apply (in_map (fun e0 => {| loc := [Index k] ++ loc e0;
                                    err_type := err_type e0 |}) e d Hd). }
      destruct (validate_items float_of_str (S k) rest) as [xs|es].
      * eexists. split; [reflexivity | exact Hin].
      * eexists. split; [reflexivity | apply in_or_app; now left].
    + destruct (IH (S k) i v e d Hi Hv Hd) as (es & Hes & Hin).
      replace (k + S i) with (S k + i) by lia.
      cbn [validate_items]. rewrite Hes.
      destruct (validate_PredictionInput float_of_str v0) as [x|e0].
      * eexists. split; [reflexivity | exact Hin].
      * eexists. split; [reflexivity | apply in_or_app; now right].
Qed.

End ErrorLocations.

(** X9.  Every error found in the element at position i of [locations] is
    part of the 422 answer, located under body, locations, i and then the
    place inside the element; errors of other elements do not hide it. *)
Theorem validation_errors_point_at_the_element :
  forall (float_of_str : string -> option float)
         (vstr : string -> list string -> string) (model : Model)
         (members : dict json) (items : list json) (log : list event)
         (i : nat) (v : json) (e : list ErrorDetails) (d : ErrorDetails),
    dict_get members "locations" = Some (JList items) ->
    nth_error items i = Some v ->
    validate_PredictionInput float_of_str v = Raise e ->
    In d e ->
    exists errors,
      post_predict float_of_str vstr model (JDict members) log
      = (UnprocessableEntity errors, log)
      /\ In {| loc := Field "body" :: Field "locations" :: Index i :: loc d;
               err_type := err_type d |} errors.
Proof.
  intros float_of_str vstr model members items log i v e d Hget Hi Hv Hd.
  destruct (validate_items_reports float_of_str items 0 i v e d Hi Hv Hd)
    as (es & Hes & Hin).
  exists (at_loc [Field "body"; Field "locations"] es). split.
  - unfold post_predict, validate_PredictionBatchInput. now rewrite Hget, Hes.
  - unfold at_loc.
    apply (in_map (fun e0 => {| loc := [Field "body"; Field "locations"] ++ loc e0;
                                err_type := err_type e0 |}) es _ Hin).
Qed.

Lemma validation_errors_point_at_the_element_witness :
  nth_error partly_invalid_items 1 = Some (JDict [("Latitude", JFloat 1)])
  /\ validate_PredictionInput parse_40_71 (JDict [("Latitude", JFloat 1)])
     = Raise [{| loc := [Field "Longitude"]; err_type := missing |}]
  /\ exists errors,
       post_predict parse_40_71 plain_text (constant_model [])
         (batch_body partly_invalid_items) []
       = (UnprocessableEntity errors, [])
       /\ In {| loc := [Field "body"; Field "locations"; Index 1; Field "Longitude"];
                err_type := missing |} errors.
Proof.
  split; [reflexivity|]. split; [reflexivity|].
  apply (validation_errors_point_at_the_element parse_40_71 plain_text (constant_model [])
           [("locations", JList partly_invalid_items)] partly_invalid_items [] 1
           (JDict [("Latitude", JFloat 1)])
           [{| loc := [Field "Longitude"]; err_type := missing |}]
           {| loc := [Field "Longitude"]; err_type := missing |}).
  - reflexivity.
  - reflexivity.
  - reflexivity.
  - now left.
Defined.
